(** * Air-quality dashboard: AQI classifier, number formatting and data hooks

    A shallow embedding of
      - frontend/lib/air-quality-constants.ts  (module [Constants]),
      - nextjs_utils_constants.js              (module [Utils]),
      - frontend2/script.js                    (module [Prototype]),
      - frontend/lib/air-quality-api.ts        (module [Api]),
      - lib/api.js                             (module [ApiJs]),
    together with the properties the specification states about them. *)

From Stdlib Require Import ZArith QArith Qround Qabs Lia Lqa List String Ascii Bool.
From stdpp Require Import base option strings gmap.

Import ListNotations.
Local Open Scope string_scope.
Local Open Scope Z_scope.

(* ===================================================================== *)
(** ** JavaScript values used by the helpers *)
(* ===================================================================== *)

Module JS.

(** A JavaScript number.  Every finite double is a rational, and the
    comparison operators compare doubles exactly, so a finite number is
    kept as its rational value; the three special values are separate.
    The two zeros compare equal and print alike, so one zero is enough. *)
Inductive number : Type :=
  | NaN : number
  | PosInf : number
  | NegInf : number
  | Fin (q : Q) : number.

(** An integer literal such as [50] or [500]. *)
Definition of_Z (z : Z) : number := Fin (inject_Z z).

(** The double that the literal [42.567] denotes:
    5990772666821247 * 2^-47, a little above 42.567. *)
Definition double_42_567 : number :=
  Fin (5990772666821247 # 140737488355328).

(** [a >= b]: false as soon as one side is NaN. *)
Definition ge (a b : number) : bool :=
  match a, b with
  | NaN, _ | _, NaN => false
  | PosInf, _ => true
  | _, NegInf => true
  | NegInf, _ => false
  | _, PosInf => false
  | Fin x, Fin y => Qle_bool y x
  end.

(** [a <= b]: false as soon as one side is NaN. *)
Definition le (a b : number) : bool :=
  match a, b with
  | NaN, _ | _, NaN => false
  | NegInf, _ => true
  | _, PosInf => true
  | PosInf, _ => false
  | _, NegInf => false
  | Fin x, Fin y => Qle_bool x y
  end.

(** What a helper can be handed where the TypeScript signature says
    [number | null | undefined]. *)
Inductive value : Type :=
  | Null : value
  | Undefined : value
  | Num (x : number) : value.

(** A thrown exception or a produced value. *)
Inductive completion (A : Type) : Type :=
  | Normal (a : A) : completion A
  | Throw (name : string) : completion A.
Arguments Normal {A} a.
Arguments Throw {A} name.

(** *** Decimal digits *)

Definition digit_char (d : Z) : ascii :=
  ascii_of_nat (48 + Z.to_nat d).

(** The decimal digits of [n >= 0], most significant first; [fuel] bounds
    the number of digits. *)
Fixpoint digits_aux (fuel : nat) (n : Z) (acc : string) : string :=
  match fuel with
  | O => acc
  | S fuel' =>
      let acc' := String (digit_char (n mod 10)) acc in
      if n / 10 =? 0 then acc' else digits_aux fuel' (n / 10) acc'
  end.

Definition digits (n : Z) : string :=
  digits_aux (S (Z.to_nat (Z.log2_up (n + 1)))) n "".

Fixpoint zeros (k : nat) : string :=
  match k with
  | O => ""
  | S k' => String "0"%char (zeros k')
  end.

Fixpoint take (k : nat) (s : string) : string :=
  match k, s with
  | S k', String c s' => String c (take k' s')
  | _, _ => ""
  end.

Fixpoint drop (k : nat) (s : string) : string :=
  match k, s with
  | S k', String _ s' => drop k' s'
  | _, _ => s
  end.

(** *** Number.prototype.toFixed *)

Section ToFixed.

(** [Number::toString] of a finite number; [toFixed] hands over to it for
    magnitudes of 10^21 and more.  It is a built-in of the language and is
    left open here. *)
Variable Number_toString : Q -> string.

(** The integer [n] for which [n / 10^f - x] is closest to zero, the larger
    one on a tie: [floor (x * 10^f + 1/2)]. *)
Definition nearest_scaled (x : Q) (f : Z) : Z :=
  Qfloor (x * inject_Z (10 ^ f) + (1 # 2)).

(** Steps 8 to 12 of toFixed on a finite [x]. *)
Definition toFixed_finite (x : Q) (f : Z) : string :=
  let s := if Qle_bool 0 x then "" else "-" in
  let x := if Qle_bool 0 x then x else Qopp x in
  if Qle_bool (inject_Z (10 ^ 21)) x then s ++ Number_toString x
  else
    let n := nearest_scaled x f in
    let m := if n =? 0 then "0" else digits n in
    let m :=
      if f =? 0 then m
      else
        let fd := Z.to_nat f in
        let k := String.length m in
        let m := if (k <=? fd)%nat then zeros (fd + 1 - k) ++ m else m in
        let k := String.length m in
        take (k - fd) m ++ "." ++ drop (k - fd) m in
    s ++ m.

(** [x.toFixed(f)] for an integral digit count [f]. *)
Definition toFixed (x : number) (f : Z) : completion string :=
  if (f <? 0) || (100 <? f) then Throw "RangeError"
  else
    match x with
    | NaN => Normal "NaN"
    | PosInf => Normal "Infinity"
    | NegInf => Normal "-Infinity"
    | Fin q => Normal (toFixed_finite q f)
    end.

End ToFixed.

(** [parseFloat(v)] for the values of [value].  [null] and [undefined] are
    first turned into the strings "null" and "undefined", neither of which
    starts with a decimal literal, so the result is NaN.  A number is turned
    into its shortest decimal form, which reads back as the same number. *)
Definition parseFloat (v : value) : number :=
  match v with
  | Null | Undefined => NaN
  | Num x => x
  end.

End JS.

(* ===================================================================== *)
(** ** frontend/lib/air-quality-constants.ts *)
(* ===================================================================== *)

Module Constants.
Import JS.

Record AQILevel : Type := mkAQILevel {
  min : Z;
  max : Z;
  color : string;
  level : string;
  description : string;
  bgColor : string;
  textColor : string;
  borderColor : string;
  glowColor : string
}.

Definition good : AQILevel :=
  mkAQILevel 0 50 "#00E400" "Good" "Air quality is satisfactory"
    "bg-green-500/20" "text-green-400" "border-green-500/30"
    "shadow-green-500/20".

Definition moderate : AQILevel :=
  mkAQILevel 51 100 "#FFFF00" "Moderate" "Air quality is acceptable"
    "bg-yellow-500/20" "text-yellow-400" "border-yellow-500/30"
    "shadow-yellow-500/20".

Definition unhealthySensitive : AQILevel :=
  mkAQILevel 101 150 "#FF7E00" "Unhealthy for Sensitive Groups"
    "Sensitive groups may experience health effects"
    "bg-orange-500/20" "text-orange-400" "border-orange-500/30"
    "shadow-orange-500/20".

Definition unhealthy : AQILevel :=
  mkAQILevel 151 200 "#FF0000" "Unhealthy"
    "Everyone may experience health effects"
    "bg-red-500/20" "text-red-400" "border-red-500/30"
    "shadow-red-500/20".

Definition veryUnhealthy : AQILevel :=
  mkAQILevel 201 300 "#8F3F97" "Very Unhealthy"
    "Health warnings of emergency conditions"
    "bg-purple-500/20" "text-purple-400" "border-purple-500/30"
    "shadow-purple-500/20".

Definition hazardous : AQILevel :=
  mkAQILevel 301 500 "#7E0023" "Hazardous"
    "Health alert: everyone may experience serious health effects"
    "bg-red-900/40" "text-red-300" "border-red-900/50"
    "shadow-red-900/30".

(** [Object.entries(AQI_LEVELS)]: the keys are not array indices, so the
    entries come in the order the object literal lists them. *)
Definition AQI_LEVELS : list (string * AQILevel) :=
  [ ("good", good);
    ("moderate", moderate);
    ("unhealthySensitive", unhealthySensitive);
    ("unhealthy", unhealthy);
    ("veryUnhealthy", veryUnhealthy);
    ("hazardous", hazardous) ].

(** The loop condition [aqi >= level.min && aqi <= level.max]. *)
Definition in_band (aqi : number) (l : AQILevel) : bool :=
  ge aqi (of_Z (min l)) && le aqi (of_Z (max l)).

(** The [for ... of] loop: the first entry whose band holds [aqi]. *)
Fixpoint scan (entries : list (string * AQILevel)) (aqi : number)
  : option (string * AQILevel) :=
  match entries with
  | [] => None
  | (key, l) :: rest =>
      if in_band aqi l then Some (key, l) else scan rest aqi
  end.

Definition getAQILevel (aqi : number) : AQILevel :=
  match scan AQI_LEVELS aqi with
  | Some (_, l) => l
  | None => good
  end.

Section FormatNumber.
Variable Number_toString : Q -> string.

(** [formatNumber(num, decimals = 1)]; for a number,
    [parseFloat(num.toString())] is [parseFloat] of that number. *)
Definition formatNumber (num : value) (decimals : option Z)
  : completion string :=
  let decimals := default 1 decimals in
  match num with
  | Null | Undefined => Normal "--"
  | Num x => toFixed Number_toString (parseFloat (Num x)) decimals
  end.

End FormatNumber.

End Constants.

(* ===================================================================== *)
(** ** nextjs_utils_constants.js *)
(* ===================================================================== *)

Module Utils.
Import JS.

Record AQILevel : Type := mkAQILevel {
  min : Z;
  max : Z;
  color : string;
  level : string;
  description : string;
  bgColor : string;
  textColor : string;
  borderColor : string
}.

Definition good : AQILevel :=
  mkAQILevel 0 50 "#00E400" "Good" "Air quality is satisfactory"
    "bg-green-100" "text-green-800" "border-green-200".
Definition moderate : AQILevel :=
  mkAQILevel 51 100 "#FFFF00" "Moderate" "Air quality is acceptable"
    "bg-yellow-100" "text-yellow-800" "border-yellow-200".
Definition unhealthySensitive : AQILevel :=
  mkAQILevel 101 150 "#FF7E00" "Unhealthy for Sensitive Groups"
    "Sensitive groups may experience health effects"
    "bg-orange-100" "text-orange-800" "border-orange-200".
Definition unhealthy : AQILevel :=
  mkAQILevel 151 200 "#FF0000" "Unhealthy"
    "Everyone may experience health effects"
    "bg-red-100" "text-red-800" "border-red-200".
Definition veryUnhealthy : AQILevel :=
  mkAQILevel 201 300 "#8F3F97" "Very Unhealthy"
    "Health warnings of emergency conditions"
    "bg-purple-100" "text-purple-800" "border-purple-200".
Definition hazardous : AQILevel :=
  mkAQILevel 301 500 "#7E0023" "Hazardous"
    "Health alert: everyone may experience serious health effects"
    "bg-red-900" "text-white" "border-red-900".

Definition AQI_LEVELS : list (string * AQILevel) :=
  [ ("good", good);
    ("moderate", moderate);
    ("unhealthySensitive", unhealthySensitive);
    ("unhealthy", unhealthy);
    ("veryUnhealthy", veryUnhealthy);
    ("hazardous", hazardous) ].

Definition in_band (aqi : number) (l : AQILevel) : bool :=
  ge aqi (of_Z (min l)) && le aqi (of_Z (max l)).

Fixpoint scan (entries : list (string * AQILevel)) (aqi : number)
  : option (string * AQILevel) :=
  match entries with
  | [] => None
  | (key, l) :: rest =>
      if in_band aqi l then Some (key, l) else scan rest aqi
  end.

Definition getAQILevel (aqi : number) : AQILevel :=
  match scan AQI_LEVELS aqi with
  | Some (_, l) => l
  | None => good
  end.

Section FormatNumber.
Variable Number_toString : Q -> string.

Definition formatNumber (num : value) (decimals : option Z)
  : completion string :=
  let decimals := default 1 decimals in
  match num with
  | Null | Undefined => Normal "--"
  | _ => toFixed Number_toString (parseFloat num) decimals
  end.

End FormatNumber.

End Utils.

(* ===================================================================== *)
(** ** frontend2/script.js (the framework-free prototype) *)
(* ===================================================================== *)

Module Prototype.
Import JS.

(** A band of the prototype: five fields, and the [key] that
    [getAQILevel] adds to the copy it returns from inside the loop. *)
Record AQILevel : Type := mkAQILevel {
  min : Z;
  max : Z;
  color : string;
  level : string;
  description : string;
  key : option string
}.

Definition good : AQILevel :=
  mkAQILevel 0 50 "#00E400" "Good" "Air quality is satisfactory" None.
Definition moderate : AQILevel :=
  mkAQILevel 51 100 "#FFFF00" "Moderate" "Air quality is acceptable" None.
Definition unhealthySensitive : AQILevel :=
  mkAQILevel 101 150 "#FF7E00" "Unhealthy for Sensitive Groups"
    "Sensitive groups may experience health effects" None.
Definition unhealthy : AQILevel :=
  mkAQILevel 151 200 "#FF0000" "Unhealthy"
    "Everyone may experience health effects" None.
Definition veryUnhealthy : AQILevel :=
  mkAQILevel 201 300 "#8F3F97" "Very Unhealthy"
    "Health warnings of emergency conditions" None.
Definition hazardous : AQILevel :=
  mkAQILevel 301 500 "#7E0023" "Hazardous"
    "Health alert: everyone may experience serious health effects" None.

Definition AQI_LEVELS : list (string * AQILevel) :=
  [ ("good", good);
    ("moderate", moderate);
    ("unhealthySensitive", unhealthySensitive);
    ("unhealthy", unhealthy);
    ("veryUnhealthy", veryUnhealthy);
    ("hazardous", hazardous) ].

Definition in_band (aqi : number) (l : AQILevel) : bool :=
  ge aqi (of_Z (min l)) && le aqi (of_Z (max l)).

(** [{ ...level, key: key }] *)
Definition with_key (l : AQILevel) (k : string) : AQILevel :=
  mkAQILevel (min l) (max l) (color l) (level l) (description l) (Some k).

Fixpoint scan (entries : list (string * AQILevel)) (aqi : number)
  : option AQILevel :=
  match entries with
  | [] => None
  | (k, l) :: rest =>
      if in_band aqi l then Some (with_key l k) else scan rest aqi
  end.

Definition getAQILevel (aqi : number) : AQILevel :=
  match scan AQI_LEVELS aqi with
  | Some l => l
  | None => hazardous
  end.

Section FormatNumber.
Variable Number_toString : Q -> string.

(** [formatNumber(num, decimals = 1)]: no test of [num] before
    [parseFloat]. *)
Definition formatNumber (num : value) (decimals : option Z)
  : completion string :=
  let decimals := default 1 decimals in
  toFixed Number_toString (parseFloat num) decimals.

End FormatNumber.

End Prototype.

(* ===================================================================== *)
(** ** Promises on a millisecond clock *)
(* ===================================================================== *)

Module Async.

(** A thrown JavaScript error: its [name] and its [message]. *)
Record JsError : Type := mkError {
  err_name : string;
  err_message : string
}.

Inductive settled (A : Type) : Type :=
  | Resolved (a : A) : settled A
  | Rejected (e : JsError) : settled A.
Arguments Resolved {A} a.
Arguments Rejected {A} e.

(** When a promise settles, counted in milliseconds from the call, and
    how; [Pending] is a promise that never settles. *)
Inductive promise (A : Type) : Type :=
  | SettlesAt (t : Z) (r : settled A) : promise A
  | Pending : promise A.
Arguments SettlesAt {A} t r.
Arguments Pending {A}.

(** How the body of a response behaves once the headers are in:
    [response.json()] yields a value or fails [dt] ms later, or the body
    never ends. *)
Inductive body (Json : Type) : Type :=
  | BodyJson (dt : Z) (j : Json) : body Json
  | BodyInvalid (dt : Z) : body Json
  | BodyStalls : body Json.
Arguments BodyJson {Json} dt j.
Arguments BodyInvalid {Json} dt.
Arguments BodyStalls {Json}.

Record response (Json : Type) : Type := mkResponse {
  status : Z;
  statusText : string;
  resp_body : body Json
}.
Arguments mkResponse {Json} status statusText resp_body.
Arguments status {Json} r.
Arguments statusText {Json} r.
Arguments resp_body {Json} r.

(** [response.ok] *)
Definition ok {Json} (r : response Json) : bool :=
  (200 <=? status r) && (status r <=? 299).

(** What the backend does with one request: headers after [t] ms, a
    network failure after [t] ms, or nothing at all. *)
Inductive network (Json : Type) : Type :=
  | Responds (t : Z) (r : response Json) : network Json
  | Fails (t : Z) (e : JsError) : network Json
  | Silent : network Json.
Arguments Responds {Json} t r.
Arguments Fails {Json} t e.
Arguments Silent {Json}.

(** [fetch(url, { signal })] with a signal that aborts at [T] ms with the
    error [abort]: the call settles as the network does when that happens
    before [T], and is rejected with [abort] at [T] otherwise. *)
Definition fetch {Json} (net : network Json) (T : Z) (abort : JsError)
  : promise (response Json) :=
  match net with
  | Responds t r =>
      if t <? T then SettlesAt t (Resolved r)
      else SettlesAt T (Rejected abort)
  | Fails t e =>
      if t <? T then SettlesAt t (Rejected e)
      else SettlesAt T (Rejected abort)
  | Silent => SettlesAt T (Rejected abort)
  end.

Definition SyntaxError : JsError :=
  mkError "SyntaxError" "Unexpected end of JSON input".

(** [response.json()] called at [t0]; [signal] is the abort still armed at
    that moment, if any. *)
Definition json {Json} (t0 : Z) (b : body Json) (signal : option (Z * JsError))
  : promise Json :=
  let guard (t : Z) (r : settled Json) : promise Json :=
    match signal with
    | Some (T, abort) =>
        if t <? T then SettlesAt t r else SettlesAt T (Rejected abort)
    | None => SettlesAt t r
    end in
  match b with
  | BodyJson dt j => guard (t0 + dt) (Resolved j)
  | BodyInvalid dt => guard (t0 + dt) (Rejected SyntaxError)
  | BodyStalls =>
      match signal with
      | Some (T, abort) => SettlesAt T (Rejected abort)
      | None => Pending
      end
  end.

(** When the backend answers at all, with headers or with a failure. *)
Definition answer_time {Json} (net : network Json) : option Z :=
  match net with
  | Responds t _ => Some t
  | Fails t _ => Some t
  | Silent => None
  end.

(** [haystack.includes(needle)] *)
Fixpoint includes (needle haystack : string) : bool :=
  if String.prefix needle haystack then true
  else
    match haystack with
    | EmptyString => false
    | String _ rest => includes needle rest
    end.

(** One run of an async function: the URLs it handed to [fetch], in order,
    and the promise it returned. *)
Record run (A : Type) : Type := mkRun {
  fetches : list string;
  result : promise A
}.
Arguments mkRun {A} fetches result.
Arguments fetches {A} r.
Arguments result {A} r.

End Async.

(* ===================================================================== *)
(** ** frontend/lib/air-quality-api.ts *)
(* ===================================================================== *)

Module Api.
Import Async.

(** [process.env] as far as the module reads it. *)
Record ProcessEnv : Type := mkEnv {
  NEXT_PUBLIC_API_URL : option string;
  NODE_ENV : option string
}.

(** [process.env.NEXT_PUBLIC_API_URL || 'http://localhost:8000'] *)
Definition API_BASE_URL (env : ProcessEnv) : string :=
  match NEXT_PUBLIC_API_URL env with
  | Some url => if String.eqb url "" then "http://localhost:8000" else url
  | None => "http://localhost:8000"
  end.

Definition REQUEST_TIMEOUT : Z := 10000.

(** The four shapes [getMockData] can return. *)
Inductive MockData : Type :=
  | mockForecastData : MockData
  | mockAllForecasts : MockData
  | mockAlerts : MockData
  | mockEmpty : MockData.

Definition getMockData (endpoint : string) : MockData :=
  if includes "/forecast/" endpoint then mockForecastData
  else if includes "/forecast" endpoint then mockAllForecasts
  else if includes "/alerts/" endpoint then mockAlerts
  else mockEmpty.

(** What [apiRequest] resolves with: the parsed body of the backend's
    answer, or mock data. *)
Inductive Payload (Json : Type) : Type :=
  | Backend (j : Json) : Payload Json
  | Mock (m : MockData) : Payload Json.
Arguments Backend {Json} j.
Arguments Mock {Json} m.

(** The rejection of [AbortSignal.timeout(ms)] and of
    [controller.abort()]. *)
Definition TimeoutError : JsError :=
  mkError "TimeoutError" "The operation was aborted due to timeout".
Definition AbortError : JsError :=
  mkError "AbortError" "The operation was aborted.".

(** [new Error(`HTTP ${response.status}: ${response.statusText}`)] *)
Definition http_error {Json} (r : response Json) : JsError :=
  mkError "Error"
    ("HTTP " ++ (if status r <? 0 then "-" else "")
       ++ JS.digits (Z.abs (status r)) ++ ": " ++ statusText r).

(** The [catch] block of the production branch. *)
Definition on_catch (e : JsError) : JsError :=
  if String.eqb (err_name e) "AbortError"
  then mkError "Error" "Request timeout"
  else e.

(** [process.env.NODE_ENV === 'development'] *)
Definition is_development (env : ProcessEnv) : bool :=
  match NODE_ENV env with
  | Some mode => String.eqb mode "development"
  | None => false
  end.

Section ApiRequest.
Context {Json : Type}.
Variable env : ProcessEnv.

(** The development branch: the [try] block either returns the parsed body
    or is left (by a response that is not ok, or through the [catch]); what
    follows the block returns the mock data. *)
Definition apiRequest_development (endpoint : string) (net : network Json)
  : promise (Payload Json) :=
  let mock t := SettlesAt t (Resolved (Mock (getMockData endpoint))) in
  match fetch net 2000 TimeoutError with
  | SettlesAt t (Resolved r) =>
      if ok r then
        match json t (resp_body r) (Some (2000, TimeoutError)) with
        | SettlesAt t' (Resolved j) => SettlesAt t' (Resolved (Backend j))
        | SettlesAt t' (Rejected _) => mock t'
        | Pending => Pending
        end
      else mock t
  | SettlesAt t (Rejected _) => mock t
  | Pending => Pending
  end.

(** The production branch; [clearTimeout] disarms the abort as soon as the
    headers are in, so the body is read without a signal. *)
Definition apiRequest_production (net : network Json)
  : promise (Payload Json) :=
  match fetch net REQUEST_TIMEOUT AbortError with
  | SettlesAt t (Resolved r) =>
      if negb (ok r) then SettlesAt t (Rejected (on_catch (http_error r)))
      else
        match json t (resp_body r) None with
        | SettlesAt t' (Resolved j) => SettlesAt t' (Resolved (Backend j))
        | SettlesAt t' (Rejected e) => SettlesAt t' (Rejected (on_catch e))
        | Pending => Pending
        end
  | SettlesAt t (Rejected e) => SettlesAt t (Rejected (on_catch e))
  | Pending => Pending
  end.

Definition apiRequest (endpoint : string) (net : network Json)
  : run (Payload Json) :=
  let url := API_BASE_URL env ++ endpoint in
  if is_development env
  then mkRun [url] (apiRequest_development endpoint net)
  else mkRun [url] (apiRequest_production net).

End ApiRequest.

End Api.

(** *** The endpoints of [airQualityAPI] and the SWR hooks *)

Module Hooks.
Import Async.

(** The endpoint each method of [airQualityAPI] hands to [apiRequest]. *)
Definition getForecast (location : string) : string :=
  "/forecast/" ++ location.
Definition getAllForecasts : string := "/forecast".
Definition getLocations : string := "/locations".
Definition getSystemStatus : string := "/data/status".
Definition getAlerts (location : string) : string :=
  "/alerts/" ++ location.
Definition getHealthRecommendations (location : string) : string :=
  "/health-recommendations/" ++ location.
Definition getValidation (location : string) : string :=
  "/validation/" ++ location.
Definition healthCheck : string := "/health".

(** The options object a hook passes to [useSWR]; times in milliseconds. *)
Record SWRConfiguration : Type := mkConfig {
  refreshInterval : Z;
  revalidateOnFocus : bool;
  dedupingInterval : option Z
}.

Inductive Hook : Type :=
  | useForecast
  | useHistorical
  | useAlerts
  | useHealthRecommendations
  | useSystemStatus
  | useValidation
  | useMultipleForecasts.

Definition options (h : Hook) : SWRConfiguration :=
  match h with
  | useForecast => mkConfig (5 * 60 * 1000) false (Some 60000)
  | useHistorical => mkConfig (15 * 60 * 1000) false None
  | useAlerts => mkConfig (2 * 60 * 1000) true None
  | useHealthRecommendations => mkConfig (10 * 60 * 1000) false None
  | useSystemStatus => mkConfig (30 * 1000) true None
  | useValidation => mkConfig (30 * 60 * 1000) false None
  | useMultipleForecasts => mkConfig (5 * 60 * 1000) false None
  end.

(** [location ? `/forecast/${location}` : null]: the empty string is falsy
    as well. *)
Definition useForecast_key (location : option string) : option string :=
  match location with
  | Some l => if String.eqb l "" then None else Some ("/forecast/" ++ l)
  | None => None
  end.

(** What [useSWR] hands back, as far as the hooks read it. *)
Record SWRResponse (D E : Type) : Type := mkSWR {
  data : option D;
  error : option E
}.
Arguments mkSWR {D E} data error.
Arguments data {D E} s.
Arguments error {D E} s.

(** What every hook returns (the first field is called [forecast],
    [historical], [alerts], ... in turn; [refresh] is SWR's [mutate]). *)
Record HookResult (D E : Type) : Type := mkResult {
  value : option D;
  isLoading : bool;
  isError : option E
}.
Arguments mkResult {D E} value isLoading isError.
Arguments value {D E} h.
Arguments isLoading {D E} h.
Arguments isError {D E} h.

(** [{ forecast: data, isLoading: !error && !data, isError: error }] *)
Definition hook_result {D E} (r : SWRResponse D E) : HookResult D E :=
  mkResult (data r)
           (negb (bool_decide (is_Some (error r)))
              && negb (bool_decide (is_Some (data r))))
           (error r).

End Hooks.

(* ===================================================================== *)
(** ** lib/api.js *)
(* ===================================================================== *)

Module ApiJs.
Import Async.

Definition REQUEST_TIMEOUT : Z := 10000.

(** The [catch] block: no [instanceof] test in this copy. *)
Definition on_catch (e : JsError) : JsError :=
  if String.eqb (err_name e) "AbortError"
  then mkError "Error" "Request timeout"
  else e.

Section ApiRequest.
Context {Json : Type}.
Variable API_BASE_URL : string.

Definition apiRequest (endpoint : string) (net : network Json)
  : run Json :=
  mkRun [API_BASE_URL ++ endpoint]
    match fetch net REQUEST_TIMEOUT Api.AbortError with
    | SettlesAt t (Resolved r) =>
        if negb (ok r)
        then SettlesAt t (Rejected (on_catch (Api.http_error r)))
        else
          match json t (resp_body r) None with
          | SettlesAt t' (Resolved j) => SettlesAt t' (Resolved j)
          | SettlesAt t' (Rejected e) => SettlesAt t' (Rejected (on_catch e))
          | Pending => Pending
          end
    | SettlesAt t (Rejected e) => SettlesAt t (Rejected (on_catch e))
    | Pending => Pending
    end.

End ApiRequest.

Definition options (h : Hooks.Hook) : Hooks.SWRConfiguration :=
  match h with
  | Hooks.useForecast => Hooks.mkConfig (5 * 60 * 1000) false (Some 60000)
  | Hooks.useHistorical => Hooks.mkConfig (15 * 60 * 1000) false None
  | Hooks.useAlerts => Hooks.mkConfig (2 * 60 * 1000) true None
  | Hooks.useHealthRecommendations =>
      Hooks.mkConfig (10 * 60 * 1000) false None
  | Hooks.useSystemStatus => Hooks.mkConfig (30 * 1000) true None
  | Hooks.useValidation => Hooks.mkConfig (30 * 60 * 1000) false None
  | Hooks.useMultipleForecasts => Hooks.mkConfig (5 * 60 * 1000) false None
  end.

End ApiJs.

(* ===================================================================== *)
(** ** The table of section 4.2 of the specification *)
(* ===================================================================== *)

Module Required.

Inductive ResourceKind : Type :=
  | forecast
  | historical_data
  | alerts
  | health_recommendations
  | system_status
  | validation_metrics.

Definition seconds (n : Z) : Z := n * 1000.
Definition minutes (n : Z) : Z := seconds (n * 60).

(** Column "Revalidation interval", in milliseconds. *)
Definition revalidation_interval (r : ResourceKind) : Z :=
  match r with
  | forecast => minutes 5
  | historical_data => minutes 15
  | alerts => minutes 2
  | health_recommendations => minutes 10
  | system_status => seconds 30
  | validation_metrics => minutes 30
  end.

(** Column "Revalidate on visibility regain". *)
Definition on_visibility_regain (r : ResourceKind) : bool :=
  match r with
  | alerts | system_status => true
  | _ => false
  end.

(** The hook that serves each resource kind. *)
Definition hook (r : ResourceKind) : Hooks.Hook :=
  match r with
  | forecast => Hooks.useForecast
  | historical_data => Hooks.useHistorical
  | alerts => Hooks.useAlerts
  | health_recommendations => Hooks.useHealthRecommendations
  | system_status => Hooks.useSystemStatus
  | validation_metrics => Hooks.useValidation
  end.

(** The open intervals between two neighbouring bands of section 3. *)
Definition in_gap (q : Q) : Prop :=
  (50 < q < 51 \/ 100 < q < 101 \/ 150 < q < 151 \/
   200 < q < 201 \/ 300 < q < 301)%Q.

End Required.

(* ===================================================================== *)
(** ** The polling data cache behind the hooks *)
(* ===================================================================== *)

Module Cache.
Import Async.

Section Cache.
Context {T E : Type}.

(** Revalidation interval of the resource kind, whether it revalidates on
    visibility regain, and the error a timeout is reported as. *)
Variable interval : Z.
Variable on_visibility_regain : bool.
Variable timeout_error : E.

(** Modelled from the spec: the cache slot of section 3 (CacheEntry).  The
    hooks keep no slot of their own, they read one from the swr package's
    [useSWR], which is not part of the sources.  [inFlight] holds the
    number of the outstanding request instead of a bare flag, so that a
    result can be matched with the request it answers; [started] counts the
    requests sent for the key and [closed] those that were answered or
    cancelled. *)
Record CacheEntry : Type := mkEntry {
  data : option T;
  error : option E;
  lastFetchedAt : option Z;
  inFlight : option nat;
  started : nat;
  closed : nat
}.

(** Modelled from the spec: the slot "created on first subscription to a
    key", with nothing fetched yet. *)
Definition fresh : CacheEntry := mkEntry None None None None 0 0.

(** Modelled from the spec: what can happen to a key (section 4.2):
    a subscription, a manual refresh, a tick of the revalidation timer,
    the consumer regaining visibility, and the three ways the request
    numbered [id] can end. *)
Inductive Event : Type :=
  | Subscribe (k : string)
  | Refresh (k : string)
  | Tick (k : string) (now : Z)
  | VisibilityRegained (k : string)
  | Success (k : string) (id : nat) (now : Z) (v : T)
  | Failure (k : string) (id : nat) (e : E)
  | Timeout (k : string) (id : nat).

(** Modelled from the spec: start a fetch, "sets inFlight = true".  A
    fetch that is still outstanding at that moment is cancelled, "its
    eventual result discarded", because "a newer fetch for the same key
    starts" (section 5): the new request takes its place in [inFlight] and
    the old one is counted as closed. *)
Definition start (c : CacheEntry) : CacheEntry :=
  mkEntry (data c) (error c) (lastFetchedAt c)
          (Some (started c)) (S (started c))
          (closed c + match inFlight c with Some _ => 1 | None => 0 end).

(** Modelled from the spec: in-flight de-duplication, as it applies to
    subscriptions and to automatic revalidation: "subscribing twice within
    1 second for the same key triggers exactly one fetch". *)
Definition request (c : CacheEntry) : CacheEntry :=
  match inFlight c with
  | Some _ => c
  | None => start c
  end.

(** Modelled from the spec: "after that interval elapses since
    lastFetchedAt, a new fetch is triggered automatically". *)
Definition due (c : CacheEntry) (now : Z) : bool :=
  match lastFetchedAt c with
  | Some t => t + interval <=? now
  | None => true
  end.

(** Modelled from the spec: a successful fetch writes [data], clears
    [error] and stamps [lastFetchedAt]; a failing one "sets error, leaves
    data untouched".  A result whose request is no longer the outstanding
    one is discarded. *)
Definition succeed (id : nat) (now : Z) (v : T) (c : CacheEntry)
  : CacheEntry :=
  if decide (inFlight c = Some id)
  then mkEntry (Some v) None (Some now) None (started c) (S (closed c))
  else c.

(** Modelled from the spec: "a failing fetch updates only error, leaving
    stale data visible". *)
Definition fail (id : nat) (e : E) (c : CacheEntry) : CacheEntry :=
  if decide (inFlight c = Some id)
  then mkEntry (data c) (Some e) (lastFetchedAt c) None
               (started c) (S (closed c))
  else c.

(** Modelled from the spec: one transition of the process-wide map.  A
    first subscription creates the slot and fetches; a later one fetches
    only when no value is cached ("returns the last cached value, or
    triggers a fetch if absent"), subject to de-duplication.  The
    revalidation timer and, for the marked resource kinds, a regain of
    visibility ask for a fetch, subject to de-duplication as well.  A
    timeout is a failure with the timeout error.

    refresh() is not modelled from section 4.2 but from the hooks, which
    return [refresh: mutate]: the bound [mutate] of swr, called without
    arguments, revalidates the key on every call, whether or not a request
    is outstanding.  So [Refresh] always starts a request, and the request
    it overtakes is superseded. *)
Definition step (s : gmap string CacheEntry) (ev : Event)
  : gmap string CacheEntry :=
  match ev with
  | Subscribe k =>
      match s !! k with
      | None => <[k := start fresh]> s
      | Some c =>
          match data c with
          | Some _ => s
          | None => <[k := request c]> s
          end
      end
  | Refresh k => alter start k s
  | Tick k now =>
      alter (fun c => if due c now then request c else c) k s
  | VisibilityRegained k =>
      if on_visibility_regain then alter request k s else s
  | Success k id now v => alter (succeed id now v) k s
  | Failure k id e => alter (fail id e) k s
  | Timeout k id => alter (fail id timeout_error) k s
  end.

Definition run (s : gmap string CacheEntry) (evs : list Event)
  : gmap string CacheEntry :=
  fold_left step evs s.

(** The key an event is about. *)
Definition key_of (ev : Event) : string :=
  match ev with
  | Subscribe k | Refresh k | Tick k _ | VisibilityRegained k
  | Success k _ _ _ | Failure k _ _ | Timeout k _ => k
  end.

(** Modelled from the spec: [step] read at the slot of the event's key
    ([None]: the key has no slot yet); [step] touches no other slot. *)
Definition slot_step (ev : Event) (slot : option CacheEntry)
  : option CacheEntry :=
  match ev with
  | Subscribe _ =>
      match slot with
      | None => Some (start fresh)
      | Some c =>
          match data c with
          | Some _ => Some c
          | None => Some (request c)
          end
      end
  | Refresh _ => start <$> slot
  | Tick _ now => (fun c => if due c now then request c else c) <$> slot
  | VisibilityRegained _ =>
      if on_visibility_regain then request <$> slot else slot
  | Success _ id now v => succeed id now v <$> slot
  | Failure _ id e => fail id e <$> slot
  | Timeout _ id => fail id timeout_error <$> slot
  end.

(** The bookkeeping of a slot: the requests sent are those closed (answered
    or superseded) plus the outstanding one, and the outstanding one is the
    latest sent. *)
Definition balanced (c : CacheEntry) : Prop :=
  started c
  = (closed c + match inFlight c with Some _ => 1 | None => 0 end)%nat /\
  forall id, inFlight c = Some id -> S id = started c.

(** The number of network calls made for a key so far. *)
Definition calls (s : gmap string CacheEntry) (k : string) : nat :=
  from_option started 0%nat (s !! k).

(** What a hook shows for a key: the entry's [data] and [error] put
    through the hook's own return expression. *)
Definition observe (s : gmap string CacheEntry) (k : string)
  : Hooks.HookResult T E :=
  Hooks.hook_result (Hooks.mkSWR (s !! k ≫= data) (s !! k ≫= error)).

(** The events that are not the answer to a request. *)
Definition is_trigger (ev : Event) : bool :=
  match ev with
  | Subscribe _ | Refresh _ | Tick _ _ | VisibilityRegained _ => true
  | _ => false
  end.

Definition is_success (ev : Event) : bool :=
  match ev with
  | Success _ _ _ _ => true
  | _ => false
  end.

End Cache.

(** The event with which the request [id], sent at [t0], ends when the
    fetcher's promise is [p]. *)
Definition outcome {T} (request_timeout : Z) (k : string) (id : nat)
    (t0 : Z) (p : promise T) : @Event T JsError :=
  match p with
  | SettlesAt t (Resolved v) =>
      if t <? request_timeout then Success k id (t0 + t) v
      else Timeout k id
  | SettlesAt t (Rejected e) =>
      if t <? request_timeout then Failure k id e else Timeout k id
  | Pending => Timeout k id
  end.

End Cache.

(* ===================================================================== *)
(** ** More of the language: truthiness, Math.round, Math.min *)
(* ===================================================================== *)

Module JSMath.
Import JS.

(** [a > b] and [a < b]: false as soon as one side is NaN. *)
Definition gt (a b : number) : bool := ge a b && negb (le a b).
Definition lt (a b : number) : bool := le a b && negb (ge a b).

(** A number is falsy when it is NaN or a zero. *)
Definition truthy (x : number) : bool :=
  match x with
  | NaN => false
  | PosInf | NegInf => true
  | Fin q => negb (Qeq_bool q 0)
  end.

(** [a || b] where [a] is a number or [undefined] and [b] a number. *)
Definition or_else (a : option number) (b : number) : number :=
  match a with
  | Some x => if truthy x then x else b
  | None => b
  end.

(** [a || b] where both sides may be [undefined]. *)
Definition or_option (a b : option number) : option number :=
  match a with
  | Some x => if truthy x then Some x else b
  | None => b
  end.

(** [Math.round(x)]: the integer nearest to [x], the larger one on a tie;
    NaN and the infinities are returned as they are. *)
Definition Math_round (x : number) : number :=
  match x with
  | Fin q => Fin (inject_Z (Qfloor (q + (1 # 2))))
  | _ => x
  end.

(** [Math.min(a, b)]: NaN as soon as one side is NaN. *)
Definition Math_min (a b : number) : number :=
  match a, b with
  | NaN, _ | _, NaN => NaN
  | _, _ => if le a b then a else b
  end.

(** *** The arithmetic of doubles *)

(** 2^e as a rational. *)
Definition pow2 (e : Z) : Q :=
  if 0 <=? e then inject_Z (2 ^ e) else 1 # Z.to_pos (2 ^ (- e)).

(** The integer nearest to [x], the even one on a tie. *)
Definition round_half_even (x : Q) : Z :=
  let f := Qfloor x in
  match Qcompare (x - inject_Z f)%Q (1 # 2) with
  | Lt => f
  | Gt => f + 1
  | Eq => if Z.even f then f else f + 1
  end.

(** For [a > 0], the [e] with 2^e <= a < 2^(e+1). *)
Definition floor_log2 (a : Q) : Z :=
  let e := Z.log2 (Qnum a) - Z.log2 (Zpos (Qden a)) in
  if Qle_bool (pow2 e) a then e else e - 1.

(** The double nearest to the rational [q], ties to even: 53 significant
    bits, down to the subnormal spacing 2^-1074, an infinity from 2^1024
    on. *)
Definition to_double (q : Q) : number :=
  let q := Qred q in
  if Qeq_bool q 0 then Fin 0
  else
    let a := Qabs q in
    let ulp := pow2 (Z.max (floor_log2 a - 52) (-1074)) in
    let r := (inject_Z (round_half_even (a / ulp)) * ulp)%Q in
    if Qle_bool (pow2 1024) r
    then if Qle_bool 0 q then PosInf else NegInf
    else Fin (Qred (if Qle_bool 0 q then r else (- r)%Q)).

(** The rational [q] is the value of a double. *)
Definition is_double (q : Q) : Prop := to_double q = Fin (Qred q).

(** [a + b] *)
Definition add (a b : number) : number :=
  match a, b with
  | NaN, _ | _, NaN => NaN
  | PosInf, NegInf | NegInf, PosInf => NaN
  | PosInf, _ | _, PosInf => PosInf
  | NegInf, _ | _, NegInf => NegInf
  | Fin x, Fin y => to_double (x + y)%Q
  end.

(** [a * b] *)
Definition mul (a b : number) : number :=
  let sign (x : number) : comparison :=
    match x with
    | NaN => Eq
    | PosInf => Gt
    | NegInf => Lt
    | Fin q => Qcompare q 0
    end in
  match a, b with
  | NaN, _ | _, NaN => NaN
  | Fin x, Fin y => to_double (x * y)%Q
  | _, _ =>
      match sign a, sign b with
      | Eq, _ | _, Eq => NaN
      | Gt, Gt | Lt, Lt => PosInf
      | _, _ => NegInf
      end
  end.

(** Every character of the string is one of '0' to '9'. *)
Fixpoint all_digits (s : string) : bool :=
  match s with
  | EmptyString => true
  | String c rest =>
      ((48 <=? nat_of_ascii c)%nat && (nat_of_ascii c <=? 57)%nat)
      && all_digits rest
  end.

End JSMath.

(* ===================================================================== *)
(** ** frontend/lib/air-quality-constants.ts: locations *)
(* ===================================================================== *)

Module Locations.

(** [lat] and [lon] hold the doubles nearest to the decimals written
    here. *)
Record Location : Type := mkLocation {
  lat : Q;
  lon : Q;
  name : string;
  timezone : string
}.

Definition LOCATIONS : gmap string Location :=
  <["Washington_DC" :=
      mkLocation (389072 # 10000) (-770369 # 10000) "Washington, DC"
                 "America/New_York"]>
  (<["Los_Angeles" :=
      mkLocation (340522 # 10000) (-1182437 # 10000) "Los Angeles, CA"
                 "America/Los_Angeles"]>
  (<["New_York" :=
      mkLocation (407128 # 10000) (-740060 # 10000) "New York, NY"
                 "America/New_York"]>
  (<["Chicago" :=
      mkLocation (418781 # 10000) (-876298 # 10000) "Chicago, IL"
                 "America/Chicago"]>
  (<["Houston" :=
      mkLocation (297604 # 10000) (-953698 # 10000) "Houston, TX"
                 "America/Chicago"]> ∅)))).

(** [LOCATIONS[locationKey]?.name || locationKey].  A key the object does
    not own is looked up on Object.prototype: "constructor" finds the
    function Object, whose name is "Object"; every other member found
    there is a function named as its key, or has no name at all; a key
    found nowhere gives undefined.  An empty name is falsy. *)
Definition getLocationName (locationKey : string) : string :=
  match LOCATIONS !! locationKey with
  | Some l => if String.eqb (name l) "" then locationKey else name l
  | None =>
      if String.eqb locationKey "constructor" then "Object"
      else locationKey
  end.

End Locations.

(* ===================================================================== *)
(** ** frontend/components/aqi-card.tsx *)
(* ===================================================================== *)

Module AQICard.
Import JS JSMath.

(** One forecast point, as far as the card reads it; a field the JSON
    does not carry is [None]. *)
Record ForecastPoint : Type := mkPoint {
  aqi_predicted : option number;
  aqi : option number;
  no2_predicted : option number;
  no2 : option number;
  o3_predicted : option number;
  o3 : option number;
  hcho_predicted : option number;
  hcho : option number
}.

(** The forecast object: its own fields and, when present, the array
    [forecast_data]. *)
Record Forecast : Type := mkForecast {
  own : ForecastPoint;
  forecast_data : option (list ForecastPoint)
}.

(** [forecast.forecast_data?.[0] || forecast] *)
Definition currentData (forecast : Forecast) : ForecastPoint :=
  match forecast_data forecast with
  | Some (first :: _) => first
  | _ => own forecast
  end.

(** [Math.round(currentData.aqi_predicted || currentData.aqi || 0)] *)
Definition displayed_aqi (forecast : Forecast) : number :=
  let d := currentData forecast in
  Math_round (or_else (or_option (aqi_predicted d) (aqi d)) (of_Z 0)).

Inductive PollutantType : Type := key_no2 | key_o3 | key_hcho.

(** [currentData[`${key}_predicted`]] and [currentData[key]] *)
Definition readings (d : ForecastPoint) (key : PollutantType)
  : option number * option number :=
  match key with
  | key_no2 => (no2_predicted d, no2 d)
  | key_o3 => (o3_predicted d, o3 d)
  | key_hcho => (hcho_predicted d, hcho d)
  end.

(** [currentData[`${key}_predicted`] || currentData[key] || 0] *)
Definition meter_value (d : ForecastPoint) (key : PollutantType) : number :=
  or_else (or_option (fst (readings d key)) (snd (readings d key))) (of_Z 0).

Section Render.
Variable Number_toString : Q -> string.

(** The text of a PollutantMeter: [formatNumber(value, 1)]. *)
Definition meter_text (d : ForecastPoint) (key : PollutantType)
  : completion string :=
  Constants.formatNumber Number_toString (Num (meter_value d key)) (Some 1).

(** Which of its four returns the component takes, and for the card
    itself the AQI, its band, the location name and the three meters. *)
Inductive Screen : Type :=
  | Skeleton
  | ErrorCard
  | NoData
  | Card (aqi : number) (aqiLevel : Constants.AQILevel)
         (locationName : string) (meters : list (completion string)).

Definition AQICard {E : Type} (location : string)
    (hook : Hooks.HookResult Forecast E) : Screen :=
  if Hooks.isLoading hook then Skeleton
  else if bool_decide (is_Some (Hooks.isError hook)) then ErrorCard
  else
    match Hooks.value hook with
    | None => NoData
    | Some forecast =>
        let d := currentData forecast in
        let aqi := displayed_aqi forecast in
        Card aqi (Constants.getAQILevel aqi)
             (Locations.getLocationName location)
             (map (meter_text d) [key_no2; key_o3; key_hcho])
    end.

End Render.

End AQICard.

(* ===================================================================== *)
(** ** The health-recommendations component *)
(* ===================================================================== *)

Module HealthRecommendations.
Import JS JSMath.

(** [userProfile]; of the three optional flags only the truthiness is
    read, so a missing flag is [false]. *)
Record UserProfile : Type := mkProfile {
  age : option number;
  hasRespiratoryConditions : bool;
  isPregnant : bool;
  isAthlete : bool
}.

(** The doubles that the literals [0.5], [0.7] and [0.3] denote. *)
Definition double_0_5 : number := Fin (1 # 2).
Definition double_0_7 : number :=
  Fin (3152519739159347 # 4503599627370496).
Definition double_0_3 : number :=
  Fin (5404319552844595 # 18014398509481984).

(** [profile.age && (profile.age < 18 || profile.age > 65)] *)
Definition age_at_risk (p : UserProfile) : bool :=
  match age p with
  | Some a => truthy a && (lt a (of_Z 18) || gt a (of_Z 65))
  | None => false
  end.

Definition riskMultiplier (profile : option UserProfile) : number :=
  match profile with
  | None => of_Z 1
  | Some p =>
      let m := of_Z 1 in
      let m := if age_at_risk p then add m double_0_5 else m in
      let m := if hasRespiratoryConditions p then add m (of_Z 1) else m in
      let m := if isPregnant p then add m double_0_7 else m in
      let m := if isAthlete p then add m double_0_3 else m in
      m
  end.

(** [getAQILevel(Math.min(500, aqi * riskMultiplier))] *)
Definition getUserRiskLevel (aqi : number) (profile : option UserProfile)
  : Constants.AQILevel :=
  let adjustedAqi := Math_min (of_Z 500) (mul aqi (riskMultiplier profile)) in
  Constants.getAQILevel adjustedAqi.

Inductive Category : Type := general | outdoor | health | indoor.
Inductive Priority : Type := high | medium | low.

Record HealthRecommendation : Type := mkRecommendation {
  category : Category;
  priority : Priority;
  title : string;
  description : string;
  icon : string;
  actionItems : list string
}.

(** The object [recommendations], one list per category. *)
Record Recommendations : Type := mkRecommendations {
  in_general : list HealthRecommendation;
  in_outdoor : list HealthRecommendation;
  in_health : list HealthRecommendation;
  in_indoor : list HealthRecommendation
}.

(** [aqi > 150 ? 'high' : aqi > 100 ? 'medium' : 'low'] *)
Definition priority_150_100 (aqi : number) : Priority :=
  if gt aqi (of_Z 150) then high
  else if gt aqi (of_Z 100) then medium else low.

Definition getRecommendationsByCategory (aqi : number)
    (userProfile : option UserProfile) : Recommendations :=
  let base_general :=
    [ mkRecommendation general (priority_150_100 aqi)
        "Monitor Air Quality"
        "Stay informed about current air quality conditions"
        "📱"
        [ "Check AQI levels before going outside";
          "Subscribe to air quality alerts";
          "Use weather apps with AQI information" ] ] in
  let base_outdoor :=
    [ mkRecommendation outdoor
        (if gt aqi (of_Z 200) then high
         else if gt aqi (of_Z 150) then medium else low)
        (if gt aqi (of_Z 200) then "Avoid Outdoor Activities"
         else if gt aqi (of_Z 150) then "Limit Outdoor Activities"
         else "Safe for Outdoor Activities")
        (if gt aqi (of_Z 200)
         then "Stay indoors and avoid all outdoor activities"
         else if gt aqi (of_Z 150)
         then "Reduce time spent outdoors, especially strenuous activities"
         else if gt aqi (of_Z 100)
         then "Consider reducing prolonged outdoor exertion"
         else "Normal outdoor activities are safe")
        (if gt aqi (of_Z 200) then "🏠"
         else if gt aqi (of_Z 150) then "⚠️" else "🌳")
        (if gt aqi (of_Z 200) then
           [ "Stay indoors with windows closed";
             "Use air purifiers if available";
             "Avoid outdoor exercise completely" ]
         else if gt aqi (of_Z 150) then
           [ "Limit outdoor activities to essential only";
             "Wear N95 mask when outside";
             "Take frequent breaks if outdoors" ]
         else if gt aqi (of_Z 100) then
           [ "Consider shorter outdoor workouts";
             "Choose early morning or evening for activities";
             "Listen to your body for any discomfort" ]
         else
           [ "Normal outdoor activities are safe";
             "Great time for exercise and recreation";
             "Enjoy fresh air activities" ]) ] in
  let base_health :=
    [ mkRecommendation health (priority_150_100 aqi)
        "Health Precautions"
        "Protect your health from air pollution effects"
        "💚"
        (if gt aqi (of_Z 200) then
           [ "Seek medical attention if experiencing symptoms";
             "Use prescribed inhalers/medications";
             "Consider relocating temporarily if possible" ]
         else if gt aqi (of_Z 150) then
           [ "Monitor for respiratory symptoms";
             "Stay hydrated and rest more";
             "Avoid smoking and secondhand smoke" ]
         else if gt aqi (of_Z 100) then
           [ "Stay hydrated throughout the day";
             "Consider vitamin C supplements";
             "Monitor sensitive group members" ]
         else
           [ "Maintain regular health routines";
             "Stay hydrated as always";
             "Enjoy normal activities" ]) ] in
  let base_indoor :=
    [ mkRecommendation indoor (priority_150_100 aqi)
        "Indoor Air Quality"
        "Improve your indoor environment"
        "🏡"
        (if gt aqi (of_Z 150) then
           [ "Keep windows and doors closed";
             "Use HEPA air purifiers";
             "Avoid indoor pollution sources" ]
         else if gt aqi (of_Z 100) then
           [ "Limit opening windows during peak hours";
             "Use fans to circulate air";
             "Consider air purifying plants" ]
         else
           [ "Open windows for natural ventilation";
             "Normal indoor activities are fine";
             "Regular cleaning maintains air quality" ]) ] in
  let respiratory :=
    mkRecommendation health high
      "Respiratory Condition Care"
      "Special precautions for respiratory conditions"
      "🫁"
      [ "Keep rescue medications readily available";
        "Follow your doctor's air quality action plan";
        "Consider indoor exercise alternatives";
        "Monitor symptoms closely" ] in
  let pregnancy :=
    mkRecommendation health high
      "Pregnancy Precautions"
      "Protect both mother and baby from air pollution"
      "🤱"
      [ "Avoid outdoor activities during high pollution";
        "Ensure proper nutrition and hydration";
        "Consult healthcare provider about concerns";
        "Consider moving activities indoors" ] in
  let flag (f : UserProfile -> bool) :=
    match userProfile with
    | Some p => f p
    | None => false
    end in
  let with_respiratory :=
    if flag hasRespiratoryConditions
    then (base_health ++ [respiratory])%list
    else base_health in
  let with_pregnancy :=
    if flag isPregnant then (with_respiratory ++ [pregnancy])%list
    else with_respiratory in
  mkRecommendations base_general base_outdoor with_pregnancy base_indoor.

End HealthRecommendations.

(* ===================================================================== *)
(** ** frontend2/script.js: advice, alerts and the AQI panel *)
(* ===================================================================== *)

Module PrototypeUI.
Import JS JSMath.

(** *** getHealthRecommendations *)

Record Advice : Type := mkAdvice {
  health : string;
  actions : list string
}.

Definition getHealthRecommendations (aqi : number) : Advice :=
  if le aqi (of_Z 50) then
    mkAdvice "Air quality is satisfactory for most people."
      [ "Enjoy outdoor activities";
        "Good time for exercise";
        "Windows can be open for ventilation" ]
  else if le aqi (of_Z 100) then
    mkAdvice
      "Sensitive individuals should consider limiting outdoor exertion."
      [ "Sensitive people should limit outdoor activities";
        "Consider reducing outdoor exercise";
        "Monitor symptoms if you have respiratory conditions" ]
  else if le aqi (of_Z 150) then
    mkAdvice "Sensitive groups should avoid outdoor activities."
      [ "Children and elderly should stay indoors";
        "People with heart or lung disease should avoid outdoor activities";
        "Consider using air purifiers indoors" ]
  else if le aqi (of_Z 200) then
    mkAdvice "Everyone should limit outdoor exertion."
      [ "Avoid outdoor activities";
        "Keep windows and doors closed";
        "Use air conditioning if available";
        "Consider wearing N95 masks if going outside" ]
  else if le aqi (of_Z 300) then
    mkAdvice "Everyone should avoid outdoor activities."
      [ "Stay indoors as much as possible";
        "Use air purifiers";
        "Avoid physical exertion";
        "Wear N95 masks if going outside is necessary" ]
  else
    mkAdvice
      "Emergency conditions - everyone should avoid outdoor exposure."
      [ "Stay indoors";
        "Use air purifiers";
        "Avoid all physical activity";
        "Consider relocating to areas with better air quality" ].

(** *** generateAlerts *)

(** [s.replace('_', ' ')]: a string pattern replaces the first match
    only. *)
Fixpoint replace_first_underscore (s : string) : string :=
  match s with
  | EmptyString => EmptyString
  | String c rest =>
      if Ascii.eqb c "_" then String " " rest
      else String c (replace_first_underscore rest)
  end.

Record Alert : Type := mkAlert {
  type : string;
  icon : string;
  title : string;
  message : string;
  notify : bool
}.

Definition generateAlerts (aqi : number) (location : string) : list Alert :=
  let first :=
    if gt aqi (of_Z 150) then
      [ mkAlert "danger" "exclamation-triangle"
          "Unhealthy Air Quality Alert"
          ("Air quality in " ++ replace_first_underscore location
             ++ " is unhealthy. Avoid outdoor activities.")
          true ]
    else if gt aqi (of_Z 100) then
      [ mkAlert "warning" "exclamation-circle"
          "Moderate Air Quality Warning"
          ("Air quality in " ++ replace_first_underscore location
             ++ " is moderate. Sensitive groups should take precautions.")
          false ]
    else [] in
  let second :=
    if gt aqi (of_Z 200) then
      [ mkAlert "danger" "fire" "Health Emergency"
          "Air quality is very unhealthy. Consider staying indoors and using air purifiers."
          true ]
    else [] in
  (first ++ second)%list.

(** *** updateCurrentAQI *)

(** A forecast as the prototype reads it; a field the JSON does not carry
    is [None]. *)
Record Forecast : Type := mkForecast {
  datetime : string;
  aqi_predicted : option number;
  no2_predicted : option number;
  o3_predicted : option number;
  hcho_predicted : option number
}.

(** The elements of the AQI panel that updateCurrentAQI writes:
    #locationName, #aqiNumber, #aqiLevel, #aqiDescription, the class of
    #currentAQICard, and #no2Value, #o3Value, #hchoValue. *)
Record Panel : Type := mkPanel {
  locationName : string;
  aqiNumber : number;
  aqiLevel : string;
  aqiDescription : string;
  className : string;
  no2Value : completion string;
  o3Value : completion string;
  hchoValue : completion string
}.

(** [toLowerCase] on the letters A to Z. *)
Definition lower (c : ascii) : ascii :=
  let n := nat_of_ascii c in
  if (65 <=? n)%nat && (n <=? 90)%nat then ascii_of_nat (n + 32) else c.

Fixpoint toLowerCase (s : string) : string :=
  match s with
  | EmptyString => EmptyString
  | String c rest => String (lower c) (toLowerCase rest)
  end.

(** The characters [\s] matches among the first 128: tab, line feed,
    vertical tab, form feed, carriage return and space. *)
Definition is_space (c : ascii) : bool :=
  let n := nat_of_ascii c in
  ((9 <=? n)%nat && (n <=? 13)%nat) || (n =? 32)%nat.

(** [s.replace(/\s+/g, '-')]: every run of white space becomes one
    dash; [in_run] tells that the previous character was white space. *)
Fixpoint dash_spaces (in_run : bool) (s : string) : string :=
  match s with
  | EmptyString => EmptyString
  | String c rest =>
      if is_space c then
        if in_run then dash_spaces true rest
        else String "-" (dash_spaces true rest)
      else String c (dash_spaces false rest)
  end.

Section Panel.
Variable Number_toString : Q -> string.

(** [(x || 0).toFixed(1)] *)
Definition reading (x : option number) : completion string :=
  toFixed Number_toString (or_else x (of_Z 0)) 1.

Definition updateCurrentAQI (forecast : option Forecast) (location : string)
    (panel : Panel) : Panel :=
  match forecast with
  | None => panel
  | Some f =>
      let aqi := Math_round (or_else (aqi_predicted f) (of_Z 50)) in
      let level := Prototype.getAQILevel aqi in
      mkPanel location aqi (Prototype.level level)
        (Prototype.description level)
        ("card aqi-card aqi-"
           ++ dash_spaces false (toLowerCase (Prototype.level level)))
        (reading (no2_predicted f))
        (reading (o3_predicted f))
        (reading (hcho_predicted f))
  end.

End Panel.

End PrototypeUI.

(* ===================================================================== *)
(** ** frontend2/script.js: loadLocationData *)
(* ===================================================================== *)

Module PrototypeLoad.
Import JS JSMath Async PrototypeUI.

Definition API_BASE_URL : string := "http://localhost:8000".
Definition REQUEST_TIMEOUT : Z := 10000.

(** The body of a forecast response, as loadLocationData reads it. *)
Record ForecastData : Type := mkData {
  forecasts : option (list Forecast);
  location : string
}.

(** A call of one of the helpers that draw outside the AQI panel. *)
Inductive HelperCall : Type :=
  | updateForecastChart (fs : list Forecast)
  | updateMap (f : option Forecast) (location : string)
  | updateLastUpdated.

(** The globals [isLoading] and [currentLocation], the AQI panel, the
    text of the error toast, and a record of what the function did: the
    helper calls and the URLs handed to [fetch], oldest first, and the
    number of runs that reached [finally]. *)
Record State : Type := mkState {
  isLoading : bool;
  currentLocation : string;
  panel : Panel;
  errorMessage : option string;
  helpers : list HelperCall;
  fetched : list string;
  finished : nat
}.

(** The [try] block up to the parsed body: the fetch under the 10-second
    abort, the status test, and [response.json()] once the timer is
    cleared. *)
Definition load_response (net : network ForecastData)
  : promise ForecastData :=
  match fetch net REQUEST_TIMEOUT Api.AbortError with
  | SettlesAt t (Resolved r) =>
      if negb (ok r) then SettlesAt t (Rejected (Api.http_error r))
      else json t (resp_body r) None
  | SettlesAt t (Rejected e) => SettlesAt t (Rejected e)
  | Pending => Pending
  end.

(** The double that the literals [25.4], [87.2] and [12.8] denote. *)
Definition double_25_4 : number := Fin (7149464408450662 # 281474976710656).
Definition double_87_2 : number := Fin (6136154492292301 # 70368744177664).
Definition double_12_8 : number := Fin (7205759403792794 # 562949953421312).

(** The forecast of [fallbackData]; [now] is [new Date().toISOString()]. *)
Definition fallback (now : string) : Forecast :=
  mkForecast now (Some (of_Z 65)) (Some double_25_4) (Some double_87_2)
             (Some double_12_8).

(** The message of the TypeError that [forecastData.forecasts[0]] throws
    when [forecasts] is undefined, as V8 words it. *)
Definition no_forecasts_message : string :=
  "Cannot read properties of undefined (reading '0')".

Section Load.
Variable Number_toString : Q -> string.

Definition with_panel (st : State) (p : Panel) : State :=
  mkState (isLoading st) (currentLocation st) p (errorMessage st)
          (helpers st) (fetched st) (finished st).

Definition with_helpers (st : State) (calls : list HelperCall) : State :=
  mkState (isLoading st) (currentLocation st) (panel st) (errorMessage st)
          (helpers st ++ calls)%list (fetched st) (finished st).

(** [showError(message)] *)
Definition showError (message : string) (st : State) : State :=
  mkState (isLoading st) (currentLocation st) (panel st) (Some message)
          (helpers st) (fetched st) (finished st).

(** The rest of the [try] block, and the [catch] when [forecasts] is
    undefined. *)
Definition after_success (d : ForecastData) (st : State) : State :=
  let st :=
    match forecasts d with
    | Some (first :: _) =>
        with_panel st
          (updateCurrentAQI Number_toString (Some first) (location d)
             (panel st))
    | _ => st
    end in
  let st := with_helpers st [updateForecastChart (default [] (forecasts d))] in
  match forecasts d with
  | Some fs =>
      with_helpers st [updateMap (head fs) (location d); updateLastUpdated]
  | None =>
      showError ("Failed to load location data: " ++ no_forecasts_message) st
  end.

(** The [catch] block. *)
Definition after_failure (e : JsError) (now : string) (st : State)
  : State :=
  if String.eqb (err_name e) "AbortError" then
    let f := fallback now in
    let st :=
      with_panel st
        (updateCurrentAQI Number_toString (Some f) (currentLocation st)
           (panel st)) in
    with_helpers st
      [updateForecastChart [f]; updateMap (Some f) (currentLocation st);
       updateLastUpdated]
  else showError ("Failed to load location data: " ++ err_message e) st.

(** What the function does once its request has settled, [finally]
    included. *)
Definition settle (o : settled ForecastData) (now : string) (st : State)
  : State :=
  let st :=
    match o with
    | Resolved d => after_success d st
    | Rejected e => after_failure e now st
    end in
  mkState false (currentLocation st) (panel st) (errorMessage st)
          (helpers st) (fetched st) (S (finished st)).

(** The function up to its first [await]. *)
Definition loadLocationData (st : State) : State :=
  if isLoading st then st
  else
    mkState true (currentLocation st) (panel st) (errorMessage st)
            (helpers st)
            (fetched st
               ++ [(API_BASE_URL ++ "/forecast/" ++ currentLocation st)
                   %string])%list
            (finished st).

(** What happens around the function: a call of it (from the start-up
    code, the refresh timer, the refresh button or the online event), the
    location selector ([currentLocation = value; loadLocationData()]), and
    the outstanding request settling; with no run outstanding there is
    nothing to settle. *)
Inductive Event : Type :=
  | Call
  | Select (location : string)
  | Settled (o : settled ForecastData) (now : string).

Definition step (st : State) (ev : Event) : State :=
  match ev with
  | Call => loadLocationData st
  | Select l =>
      loadLocationData
        (mkState (isLoading st) l (panel st) (errorMessage st) (helpers st)
                 (fetched st) (finished st))
  | Settled o now => if isLoading st then settle o now st else st
  end.

Definition run (st : State) (evs : list Event) : State :=
  fold_left step evs st.

End Load.

(** The requests sent are the runs finished plus the one outstanding. *)
Definition one_at_a_time (st : State) : Prop :=
  length (fetched st)
  = (finished st + (if isLoading st then 1 else 0))%nat.

(** The page once it has loaded, before the first call: the location
    selector on Washington_DC, nothing requested yet. *)
Definition page_loaded (p : Panel) : State :=
  mkState false "Washington_DC" p None [] [] 0.

End PrototypeLoad.

(* ===================================================================== *)
(** * Properties *)
(* ===================================================================== *)

(** ** Comparisons of numbers *)

Section Comparisons.
Import JS.

Lemma Qle_bool_inject_Z (a b : Z) :
  Qle_bool (inject_Z a) (inject_Z b) = (a <=? b).
Proof.
  unfold Qle_bool, inject_Z; cbn [Qnum Qden].
  now rewrite !Z.mul_1_r.
Qed.

Lemma Qle_bool_false (x y : Q) : Qle_bool x y = false <-> (y < x)%Q.
Proof.
  split; intros H.
  - apply Qnot_le_lt. intros Hle. apply Qle_bool_iff in Hle. congruence.
  - destruct (Qle_bool x y) eqn:Hb; [|reflexivity].
    apply Qle_bool_iff in Hb. lra.
Qed.

Lemma ge_Fin (q : Q) (z : Z) :
  ge (Fin q) (of_Z z) = true <-> (inject_Z z <= q)%Q.
Proof. cbn. apply Qle_bool_iff. Qed.

Lemma le_Fin (q : Q) (z : Z) :
  le (Fin q) (of_Z z) = true <-> (q <= inject_Z z)%Q.
Proof. cbn. apply Qle_bool_iff. Qed.

Lemma ge_of_Z (a b : Z) : ge (of_Z a) (of_Z b) = (b <=? a).
Proof. cbn. apply Qle_bool_inject_Z. Qed.

Lemma le_of_Z (a b : Z) : le (of_Z a) (of_Z b) = (a <=? b).
Proof. cbn. apply Qle_bool_inject_Z. Qed.

End Comparisons.

(** Decides every comparison of a rational against a band bound in the
    goal, keeping the two outcomes as facts about rationals. *)
Ltac split_bounds :=
  repeat match goal with
  | |- context [Qle_bool ?a ?b] =>
      let Hb := fresh "Hb" in
      destruct (Qle_bool a b) eqn:Hb;
      [ apply Qle_bool_iff in Hb | apply Qle_bool_false in Hb ];
      unfold inject_Z in Hb; cbn [andb]; try (exfalso; lra)
  end.

Ltac scan_bands :=
  cbv [JS.ge JS.le JS.of_Z]; cbn [andb];
  split_bounds; try reflexivity.

(** ** The classifier of air-quality-constants.ts *)

Section ConstantsClassifier.
Import JS Constants.

Lemma in_band_of_Z (z : Z) (l : AQILevel) :
  in_band (of_Z z) l = (min l <=? z) && (z <=? max l).
Proof. unfold in_band. now rewrite ge_of_Z, le_of_Z. Qed.

Lemma getAQILevel_NaN : getAQILevel NaN = good.
Proof. reflexivity. Qed.

Lemma getAQILevel_PosInf : getAQILevel PosInf = good.
Proof. reflexivity. Qed.

Lemma getAQILevel_NegInf : getAQILevel NegInf = good.
Proof. reflexivity. Qed.

Lemma getAQILevel_negative (q : Q) :
  (q < 0)%Q -> getAQILevel (Fin q) = good.
Proof.
  intros H. unfold getAQILevel, AQI_LEVELS, scan, in_band.
  cbn [min max good moderate unhealthySensitive unhealthy veryUnhealthy
       hazardous].
  scan_bands.
Qed.

Lemma getAQILevel_above_500 (q : Q) :
  (500 < q)%Q -> getAQILevel (Fin q) = good.
Proof.
  intros H. unfold getAQILevel, AQI_LEVELS, scan, in_band.
  cbn [min max good moderate unhealthySensitive unhealthy veryUnhealthy
       hazardous].
  scan_bands.
Qed.

(** In this copy every input outside the six bands is classified "Good". *)
Lemma getAQILevel_fallback (aqi : number) :
  (forall entry, In entry AQI_LEVELS -> in_band aqi (snd entry) = false) ->
  getAQILevel aqi = good.
Proof.
  intros H. unfold getAQILevel.
  assert (Hscan : forall entries,
            (forall entry, In entry entries ->
                           in_band aqi (snd entry) = false) ->
            scan entries aqi = None).
  { induction entries as [|[k l] rest IH]; intros Hall; [reflexivity|].
    pose proof (Hall (k, l) (or_introl eq_refl)) as Hk.
    cbn [scan snd] in *. rewrite Hk.
    apply IH. intros entry Hin. apply Hall. now right. }
  now rewrite (Hscan _ H).
Qed.

End ConstantsClassifier.

(** ** The classifier of nextjs_utils_constants.js *)

Section UtilsClassifier.
Import JS Utils.

Lemma Utils_scan_none (aqi : number) (entries : list (string * AQILevel)) :
  (forall entry, In entry entries -> in_band aqi (snd entry) = false) ->
  scan entries aqi = None.
Proof.
  induction entries as [|[k l] rest IH]; intros Hall; [reflexivity|].
  pose proof (Hall (k, l) (or_introl eq_refl)) as Hk.
  cbn [scan snd] in *. rewrite Hk.
  apply IH. intros entry Hin. apply Hall. now right.
Qed.

(** This copy, too, classifies every input outside the six bands "Good". *)
Lemma Utils_getAQILevel_fallback (aqi : number) :
  (forall entry, In entry AQI_LEVELS -> in_band aqi (snd entry) = false) ->
  getAQILevel aqi = good.
Proof.
  intros H. unfold getAQILevel. now rewrite (Utils_scan_none _ _ H).
Qed.

End UtilsClassifier.

(** ** The classifier of the prototype *)

Section PrototypeClassifier.
Import JS Prototype.

Lemma Prototype_scan_none (aqi : number)
    (entries : list (string * AQILevel)) :
  (forall entry, In entry entries -> in_band aqi (snd entry) = false) ->
  scan entries aqi = None.
Proof.
  induction entries as [|[k l] rest IH]; intros Hall; [reflexivity|].
  pose proof (Hall (k, l) (or_introl eq_refl)) as Hk.
  cbn [scan snd] in *. rewrite Hk.
  apply IH. intros entry Hin. apply Hall. now right.
Qed.

(** The prototype sends every input outside the six bands to its last
    band. *)
Lemma Prototype_getAQILevel_fallback (aqi : number) :
  (forall entry, In entry AQI_LEVELS -> in_band aqi (snd entry) = false) ->
  getAQILevel aqi = hazardous.
Proof.
  intros H. unfold getAQILevel. now rewrite (Prototype_scan_none _ _ H).
Qed.

End PrototypeClassifier.

(** C1.  Inputs outside all bands (600, -10 and NaN are taken here) are
    classified "Good" by the classifiers of air-quality-constants.ts and of
    nextjs_utils_constants.js, but the prototype's classifier in script.js
    returns its "Hazardous" band for each of them. *)
Theorem C1_prototype_falls_back_to_hazardous :
  let out_of_domain := [JS.Fin 600; JS.Fin (-10); JS.NaN] in
  map (fun aqi => Constants.level (Constants.getAQILevel aqi)) out_of_domain
    = ["Good"; "Good"; "Good"] /\
  map (fun aqi => Utils.level (Utils.getAQILevel aqi)) out_of_domain
    = ["Good"; "Good"; "Good"] /\
  map Prototype.getAQILevel out_of_domain
    = [Prototype.hazardous; Prototype.hazardous; Prototype.hazardous] /\
  Prototype.level Prototype.hazardous = "Hazardous".
Proof. cbn. repeat split. Qed.

(** Steps of the proof that the bands partition 0..500: name the band,
    show no other entry matches, and run the loop. *)
Ltac pick k b :=
  exists k, b; split; [cbn; tauto|]; split; [cbn; lia|]; split.

Ltac unique Hscan :=
  intros key' band' Hin Hband; rewrite Hscan in Hband;
  cbn in Hin;
  repeat (destruct Hin as [Hin|Hin];
          [injection Hin as <- <-; first [reflexivity | cbn in Hband; lia]|]);
  contradiction.

Ltac returned Hscan :=
  unfold Constants.getAQILevel, Constants.AQI_LEVELS, Constants.scan;
  rewrite !Hscan; cbn [Constants.min Constants.max Constants.good
    Constants.moderate Constants.unhealthySensitive Constants.unhealthy
    Constants.veryUnhealthy Constants.hazardous];
  repeat match goal with
  | |- context [?a <=? ?b] =>
      destruct (Z.leb_spec a b); cbn [andb]; try lia
  end; reflexivity.

(** C2.  For every integer aqi from 0 to 500 exactly one entry of the band
    table has min <= aqi <= max, and getAQILevel returns the band of that
    entry. *)
Theorem C2_bands_partition_0_500 (aqi : Z) :
  0 <= aqi <= 500 ->
  exists key band,
    In (key, band) Constants.AQI_LEVELS /\
    Constants.min band <= aqi <= Constants.max band /\
    (forall key' band',
        In (key', band') Constants.AQI_LEVELS ->
        Constants.in_band (JS.of_Z aqi) band' = true ->
        (key', band') = (key, band)) /\
    Constants.getAQILevel (JS.of_Z aqi) = band.
Proof.
  intros Hrange.
  assert (Hcases : aqi <= 50 \/ 51 <= aqi <= 100 \/ 101 <= aqi <= 150 \/
                   151 <= aqi <= 200 \/ 201 <= aqi <= 300 \/ 301 <= aqi)
    by lia.
  assert (Hscan : forall l,
             Constants.in_band (JS.of_Z aqi) l
             = (Constants.min l <=? aqi) && (aqi <=? Constants.max l))
    by apply in_band_of_Z.
  destruct Hcases as [H|[H|[H|[H|[H|H]]]]].
  - pick "good" Constants.good; [unique Hscan | returned Hscan].
  - pick "moderate" Constants.moderate; [unique Hscan | returned Hscan].
  - pick "unhealthySensitive" Constants.unhealthySensitive;
      [unique Hscan | returned Hscan].
  - pick "unhealthy" Constants.unhealthy; [unique Hscan | returned Hscan].
  - pick "veryUnhealthy" Constants.veryUnhealthy;
      [unique Hscan | returned Hscan].
  - pick "hazardous" Constants.hazardous; [unique Hscan | returned Hscan].
Qed.

Lemma C2_bands_partition_0_500_witness :
  exists key band,
    In (key, band) Constants.AQI_LEVELS /\
    Constants.min band <= 175 <= Constants.max band /\
    (forall key' band',
        In (key', band') Constants.AQI_LEVELS ->
        Constants.in_band (JS.of_Z 175) band' = true ->
        (key', band') = (key, band)) /\
    Constants.getAQILevel (JS.of_Z 175) = band.
Proof. apply (C2_bands_partition_0_500 175). lia. Defined.

(** The scenario of section 8: 42 is rendered "Good" with the text "Air
    quality is satisfactory", 175 is rendered "Unhealthy". *)
Example getAQILevel_42_then_175 :
  Constants.getAQILevel (JS.of_Z 42) = Constants.good /\
  Constants.description Constants.good = "Air quality is satisfactory" /\
  Constants.level (Constants.getAQILevel (JS.of_Z 175)) = "Unhealthy".
Proof. repeat split. Qed.

(** C9.  A value strictly between two neighbouring bands lies in no band,
    so getAQILevel leaves the loop without a match and returns the "Good"
    band. *)
Theorem C9_gap_values_are_good (q : Q) :
  Required.in_gap q ->
  (forall entry, In entry Constants.AQI_LEVELS ->
                 Constants.in_band (JS.Fin q) (snd entry) = false) /\
  Constants.getAQILevel (JS.Fin q) = Constants.good /\
  Constants.level Constants.good = "Good".
Proof.
  intros Hgap.
  assert (Hnone : forall entry, In entry Constants.AQI_LEVELS ->
                    Constants.in_band (JS.Fin q) (snd entry) = false).
  { intros entry Hin. cbn in Hin.
    unfold Required.in_gap in Hgap.
    repeat (destruct Hin as [<-|Hin]; [
      unfold Constants.in_band;
      cbn [snd Constants.min Constants.max Constants.good Constants.moderate
           Constants.unhealthySensitive Constants.unhealthy
           Constants.veryUnhealthy Constants.hazardous];
      scan_bands |]).
    contradiction. }
  split; [exact Hnone|]. split; [|reflexivity].
  now apply getAQILevel_fallback.
Qed.

Lemma C9_gap_values_are_good_witness :
  (forall entry, In entry Constants.AQI_LEVELS ->
                 Constants.in_band (JS.Fin (201 # 2)) (snd entry) = false) /\
  Constants.getAQILevel (JS.Fin (201 # 2)) = Constants.good /\
  Constants.level Constants.good = "Good".
Proof.
  apply (C9_gap_values_are_good (201 # 2)).
  unfold Required.in_gap. right; left. split; reflexivity.
Defined.

(** ** formatNumber *)

Section FormatNumberFacts.
Import JS.
Variable Number_toString : Q -> string.

(** air-quality-constants.ts: the placeholder for both missing values,
    whatever the digit count. *)
Lemma formatNumber_missing (decimals : option Z) :
  Constants.formatNumber Number_toString Null decimals = Normal "--" /\
  Constants.formatNumber Number_toString Undefined decimals = Normal "--".
Proof. split; reflexivity. Qed.

(** air-quality-constants.ts: a number is rendered by toFixed, with one
    decimal when no count is given. *)
Lemma formatNumber_number (x : number) (decimals : option Z) :
  Constants.formatNumber Number_toString (Num x) decimals
  = toFixed Number_toString x (default 1 decimals).
Proof. reflexivity. Qed.

(** nextjs_utils_constants.js keeps the same contract. *)
Lemma Utils_formatNumber_contract (decimals : option Z) (x : number) :
  Utils.formatNumber Number_toString Null decimals = Normal "--" /\
  Utils.formatNumber Number_toString Undefined decimals = Normal "--" /\
  Utils.formatNumber Number_toString (Num x) decimals
  = toFixed Number_toString x (default 1 decimals).
Proof. repeat split. Qed.

(** The prototype hands every argument to parseFloat, so a missing value
    is rendered as NaN is, whatever the digit count in 0..100. *)
Lemma Prototype_formatNumber_missing (decimals : Z) :
  0 <= decimals <= 100 ->
  Prototype.formatNumber Number_toString Null (Some decimals)
  = Normal "NaN" /\
  Prototype.formatNumber Number_toString Undefined (Some decimals)
  = Normal "NaN".
Proof.
  intros [Hlo Hhi].
  unfold Prototype.formatNumber, toFixed; cbn [default from_option id parseFloat].
  assert (Hin : (decimals <? 0) || (100 <? decimals) = false).
  { apply orb_false_iff. split; apply Z.ltb_ge; lia. }
  rewrite Hin. split; reflexivity.
Qed.

End FormatNumberFacts.

(** C3.  formatNumber(null, 1) is "--" and formatNumber(42.567, 1) is
    "42.6" in air-quality-constants.ts and in nextjs_utils_constants.js;
    the prototype's formatNumber renders 42.567 the same way, but
    returns "NaN" for null and for undefined. *)
Theorem C3_prototype_formatNumber_has_no_placeholder
    (Number_toString : Q -> string) :
  let rendered (f : JS.value -> option Z -> JS.completion string) :=
    (f JS.Null (Some 1), f JS.Undefined (Some 1),
     f (JS.Num JS.double_42_567) (Some 1)) in
  rendered (Constants.formatNumber Number_toString)
    = (JS.Normal "--", JS.Normal "--", JS.Normal "42.6") /\
  rendered (Utils.formatNumber Number_toString)
    = (JS.Normal "--", JS.Normal "--", JS.Normal "42.6") /\
  rendered (Prototype.formatNumber Number_toString)
    = (JS.Normal "NaN", JS.Normal "NaN", JS.Normal "42.6").
Proof.
  cbv zeta. repeat split; vm_compute; reflexivity.
Qed.

(** ** The options of the hooks *)

(** C4.  For each of the six resource kinds the hook's refreshInterval is
    the interval of the table and its revalidateOnFocus is the table's
    visibility flag: forecast 5 min / no, historical 15 min / no, alerts
    2 min / yes, health recommendations 10 min / no, system status 30 s /
    yes, validation metrics 30 min / no; in air-quality-api.ts and in
    lib/api.js alike. *)
Theorem C4_revalidation_table (r : Required.ResourceKind) :
  Hooks.refreshInterval (Hooks.options (Required.hook r))
    = Required.revalidation_interval r /\
  Hooks.revalidateOnFocus (Hooks.options (Required.hook r))
    = Required.on_visibility_regain r /\
  Hooks.refreshInterval (ApiJs.options (Required.hook r))
    = Required.revalidation_interval r /\
  Hooks.revalidateOnFocus (ApiJs.options (Required.hook r))
    = Required.on_visibility_regain r.
Proof. destruct r; repeat split. Qed.

(** The same table in milliseconds. *)
Example revalidation_table_ms :
  map (fun r => (Hooks.refreshInterval (Hooks.options (Required.hook r)),
                 Hooks.revalidateOnFocus (Hooks.options (Required.hook r))))
      [Required.forecast; Required.historical_data; Required.alerts;
       Required.health_recommendations; Required.system_status;
       Required.validation_metrics]
  = [(300000, false); (900000, false); (120000, true);
     (600000, false); (30000, true); (1800000, false)].
Proof. reflexivity. Qed.

(** ** apiRequest *)

Section ApiRequestFacts.
Import Async Api.
Context {Json : Type}.

Lemma on_catch_abort : on_catch AbortError = mkError "Error" "Request timeout".
Proof. reflexivity. Qed.

Lemma on_catch_http (r : response Json) : on_catch (http_error r) = http_error r.
Proof. reflexivity. Qed.

Lemma on_catch_other (e : JsError) :
  err_name e <> "AbortError" -> on_catch e = e.
Proof.
  intros Hname. unfold on_catch.
  destruct (String.eqb_spec (err_name e) "AbortError"); [contradiction|].
  reflexivity.
Qed.

(** The message of an HTTP-status error never reads "Request timeout". *)
Lemma http_error_is_not_timeout (r : response Json) :
  http_error r <> mkError "Error" "Request timeout".
Proof. unfold http_error. cbn. intros H. discriminate H. Qed.

(** A request the backend has not answered before the abort fires is
    rejected with the abort's error at that moment. *)
Lemma fetch_late (net : network Json) (T : Z) (abort : JsError) :
  (forall t, answer_time net = Some t -> T <= t) ->
  fetch net T abort = SettlesAt T (Rejected abort).
Proof.
  intros Hlate. destruct net as [t r|t e|]; cbn in *; [| |reflexivity].
  - specialize (Hlate t eq_refl).
    destruct (Z.ltb_spec t T); [lia|reflexivity].
  - specialize (Hlate t eq_refl).
    destruct (Z.ltb_spec t T); [lia|reflexivity].
Qed.

(** [response.json()] under an armed signal settles, and not after the
    signal's time unless it settled when it was called. *)
Lemma json_armed (t0 : Z) (b : body Json) (T : Z) (abort : JsError) :
  t0 <= T ->
  exists t r, json t0 b (Some (T, abort)) = SettlesAt t r /\ t <= T.
Proof.
  intros Ht0. destruct b as [dt j|dt|]; cbn.
  - destruct (Z.ltb_spec (t0 + dt) T); eauto with lia.
  - destruct (Z.ltb_spec (t0 + dt) T); eauto with lia.
  - eauto with lia.
Qed.

End ApiRequestFacts.

Section ApiRequestTimeout.
Import Async Api.
Context {Json : Type}.

(** Outside development mode: one call of fetch; a backend that has not
    answered within REQUEST_TIMEOUT is cut off then with "Request
    timeout"; an answer before that is not touched by the timer. *)
Lemma apiRequest_production_cases (env : ProcessEnv) (endpoint : string)
    (net : network Json) :
  is_development env = false ->
  fetches (apiRequest env endpoint net) = [API_BASE_URL env ++ endpoint] /\
  ((forall t, answer_time net = Some t -> REQUEST_TIMEOUT <= t) ->
   result (apiRequest env endpoint net)
   = SettlesAt REQUEST_TIMEOUT (Rejected (mkError "Error" "Request timeout"))) /\
  (forall t r, net = Responds t r -> t < REQUEST_TIMEOUT -> ok r = false ->
   result (apiRequest env endpoint net)
   = SettlesAt t (Rejected (http_error r))) /\
  (forall t e, net = Fails t e -> t < REQUEST_TIMEOUT ->
   err_name e <> "AbortError" ->
   result (apiRequest env endpoint net) = SettlesAt t (Rejected e)) /\
  (forall t r dt j, net = Responds t r -> t < REQUEST_TIMEOUT -> ok r = true ->
   resp_body r = BodyJson dt j ->
   result (apiRequest env endpoint net)
   = SettlesAt (t + dt) (Resolved (Backend j))).
Proof.
  intros Hmode. unfold apiRequest. rewrite Hmode. cbn [fetches result].
  split; [reflexivity|]. unfold apiRequest_production.
  repeat split.
  - intros Hlate. now rewrite (fetch_late net _ _ Hlate).
  - intros t r -> Ht Hok. cbn [fetch].
    destruct (Z.ltb_spec t REQUEST_TIMEOUT); [|lia].
    now rewrite Hok.
  - intros t e -> Ht Hname. cbn [fetch].
    destruct (Z.ltb_spec t REQUEST_TIMEOUT); [|lia].
    now rewrite on_catch_other.
  - intros t r dt j -> Ht Hok Hbody. cbn [fetch].
    destruct (Z.ltb_spec t REQUEST_TIMEOUT); [|lia].
    rewrite Hok, Hbody. reflexivity.
Qed.

End ApiRequestTimeout.

(** C5, as the code has it.  When NODE_ENV is not 'development', apiRequest
    calls fetch exactly once and starts no retry; if the backend has not
    answered within the fixed 10 seconds the request is aborted and
    apiRequest is rejected, at 10 seconds, with Error('Request timeout');
    a response with a non-2xx status and a network failure that arrive
    earlier are rejected with their own errors, which are not that one. *)
Theorem C5_production_timeout {Json : Type} (env : Api.ProcessEnv)
    (endpoint : string) (net : Async.network Json) :
  Api.is_development env = false ->
  Api.REQUEST_TIMEOUT = 10000 /\
  Async.fetches (Api.apiRequest env endpoint net)
    = [Api.API_BASE_URL env ++ endpoint] /\
  ((forall t, Async.answer_time net = Some t -> 10000 <= t) ->
   Async.result (Api.apiRequest env endpoint net)
   = Async.SettlesAt 10000
       (Async.Rejected (Async.mkError "Error" "Request timeout"))) /\
  (forall t r, net = Async.Responds t r -> t < 10000 -> Async.ok r = false ->
   Async.result (Api.apiRequest env endpoint net)
   = Async.SettlesAt t (Async.Rejected (Api.http_error r)) /\
   Api.http_error r <> Async.mkError "Error" "Request timeout") /\
  (forall t e, net = Async.Fails t e -> t < 10000 ->
   Async.err_name e <> "AbortError" ->
   Async.result (Api.apiRequest env endpoint net)
   = Async.SettlesAt t (Async.Rejected e)).
Proof.
  intros Hmode.
  destruct (apiRequest_production_cases env endpoint net Hmode)
    as (Hone & Hlate & Hhttp & Hfail & _).
  split; [reflexivity|]. split; [exact Hone|].
  split; [exact Hlate|]. split; [|exact Hfail].
  intros t r Hnet Ht Hok. split.
  - now apply Hhttp.
  - apply http_error_is_not_timeout.
Qed.

Lemma C5_production_timeout_witness :
  let env := Api.mkEnv None (Some "production") in
  let endpoint := "/forecast/washington_dc" in
  let net : Async.network unit := Async.Silent in
  Api.REQUEST_TIMEOUT = 10000 /\
  Async.fetches (Api.apiRequest env endpoint net)
    = [Api.API_BASE_URL env ++ endpoint] /\
  ((forall t, Async.answer_time net = Some t -> 10000 <= t) ->
   Async.result (Api.apiRequest env endpoint net)
   = Async.SettlesAt 10000
       (Async.Rejected (Async.mkError "Error" "Request timeout"))) /\
  (forall t r, net = Async.Responds t r -> t < 10000 -> Async.ok r = false ->
   Async.result (Api.apiRequest env endpoint net)
   = Async.SettlesAt t (Async.Rejected (Api.http_error r)) /\
   Api.http_error r <> Async.mkError "Error" "Request timeout") /\
  (forall t e, net = Async.Fails t e -> t < 10000 ->
   Async.err_name e <> "AbortError" ->
   Async.result (Api.apiRequest env endpoint net)
   = Async.SettlesAt t (Async.Rejected e)).
Proof.
  apply (C5_production_timeout (Api.mkEnv None (Some "production"))
           "/forecast/washington_dc" Async.Silent).
  reflexivity.
Defined.

(** C5 as stated fails in development mode: a backend that never answers
    is cut off after 2 seconds, not 10, and the call is not rejected at
    all, it resolves with the mock forecast. *)
Lemma C5_development_counterexample :
  let env := Api.mkEnv None (Some "development") in
  let net : Async.network unit := Async.Silent in
  Async.result (Api.apiRequest env "/forecast/washington_dc" net)
  = Async.SettlesAt 2000 (Async.Resolved (Api.Mock Api.mockForecastData)).
Proof. reflexivity. Qed.

(** ** The cache *)

Section CacheFacts.
Import Cache.
Context {T E : Type}.
Variable interval : Z.
Variable on_visibility_regain : bool.
Variable timeout_error : E.

Local Abbreviation entry := (@CacheEntry T E).
Local Abbreviation cache := (gmap string (@CacheEntry T E)).
Local Abbreviation step := (Cache.step interval on_visibility_regain timeout_error).
Local Abbreviation run := (Cache.run interval on_visibility_regain timeout_error).
Local Abbreviation slot_step :=
  (Cache.slot_step interval on_visibility_regain timeout_error).

(** An event rewrites the slot of its key and no other. *)
Lemma step_lookup (s : cache) (ev : Event) (k : string) :
  step s ev !! k
  = if decide (key_of ev = k) then slot_step ev (s !! k) else s !! k.
Proof.
  destruct ev as [k0|k0|k0 now|k0|k0 id now v|k0 id e|k0 id];
    cbn [Cache.step key_of Cache.slot_step];
    try (rewrite lookup_alter; destruct (decide (k0 = k)) as [->|];
         reflexivity).
  - destruct (decide (k0 = k)) as [->|Hne].
    + destruct (s !! k) as [c|] eqn:Hk.
      * destruct (data c); [exact Hk|]. now rewrite lookup_insert_eq.
      * now rewrite lookup_insert_eq.
    + destruct (s !! k0) as [c|]; [destruct (data c)|];
        now rewrite ?lookup_insert_ne.
  - destruct on_visibility_regain.
    + rewrite lookup_alter. destruct (decide (k0 = k)) as [->|]; reflexivity.
    + destruct (decide (k0 = k)) as [->|]; reflexivity.
Qed.

Lemma run_snoc (s : cache) (evs : list Event) (ev : Event) :
  run s (evs ++ [ev]) = step (run s evs) ev.
Proof. unfold Cache.run. now rewrite fold_left_app. Qed.

(** *** What the helpers leave alone *)

Lemma request_keeps (c : entry) :
  data (request c) = data c /\ error (request c) = error c.
Proof. unfold request, start. destruct (inFlight c); split; reflexivity. Qed.

Lemma fail_keeps_data (id : nat) (e : E) (c : entry) :
  data (fail id e c) = data c.
Proof. unfold fail. destruct (decide _); reflexivity. Qed.

Lemma fail_keeps_an_error (id : nat) (e : E) (c : entry) :
  is_Some (error c) -> is_Some (error (fail id e c)).
Proof. unfold fail. destruct (decide _); cbn; eauto. Qed.

(** Only a successful fetch writes [data]. *)
Lemma slot_step_data (ev : Event) (slot : option entry) :
  is_success ev = false -> slot_step ev slot ≫= data = slot ≫= data.
Proof.
  intros Hev.
  destruct ev as [k|k|k now|k|k id now v|k id e|k id]; try discriminate;
    cbn [Cache.slot_step]; destruct slot as [c|]; cbn; try reflexivity.
  - destruct (data c) eqn:Hd; cbn; [congruence|].
    now rewrite (proj1 (request_keeps c)).
  - destruct (due interval c now); [|reflexivity].
    now rewrite (proj1 (request_keeps c)).
  - destruct on_visibility_regain; cbn; [|reflexivity].
    now rewrite (proj1 (request_keeps c)).
  - now destruct on_visibility_regain.
  - now rewrite fail_keeps_data.
  - now rewrite fail_keeps_data.
Qed.

(** Only a successful fetch clears [error]. *)
Lemma slot_step_error (ev : Event) (slot : option entry) :
  is_success ev = false ->
  is_Some (slot ≫= error) -> is_Some (slot_step ev slot ≫= error).
Proof.
  intros Hev.
  destruct ev as [k|k|k now|k|k id now v|k id e|k id]; try discriminate;
    cbn [Cache.slot_step]; destruct slot as [c|]; cbn;
    try (intros [? [=]]; fail).
  - destruct (data c); cbn; [tauto|].
    now rewrite (proj2 (request_keeps c)).
  - tauto.
  - destruct (due interval c now); [|tauto].
    now rewrite (proj2 (request_keeps c)).
  - destruct on_visibility_regain; cbn; [|tauto].
    now rewrite (proj2 (request_keeps c)).
  - apply fail_keeps_an_error.
  - apply fail_keeps_an_error.
Qed.

End CacheFacts.

Section CacheRuns.
Import Cache.
Context {T E : Type}.
Variable interval : Z.
Variable on_visibility_regain : bool.
Variable timeout_error : E.

Local Abbreviation entry := (@CacheEntry T E).
Local Abbreviation cache := (gmap string (@CacheEntry T E)).
Local Abbreviation step := (Cache.step interval on_visibility_regain timeout_error).
Local Abbreviation run := (Cache.run interval on_visibility_regain timeout_error).
Local Abbreviation slot_step :=
  (Cache.slot_step interval on_visibility_regain timeout_error).
Local Abbreviation observe := (@Cache.observe T E).

(** Without a successful fetch among them, events leave every [data] as
    it is and never take an [error] away. *)
Lemma run_without_success (evs : list Event) (s : cache) (k : string) :
  Forall (fun ev => is_success ev = false) evs ->
  run s evs !! k ≫= data = s !! k ≫= data /\
  (is_Some (s !! k ≫= error) -> is_Some (run s evs !! k ≫= error)).
Proof.
  revert s. induction evs as [|ev evs IH]; intros s Hall; [now split|].
  apply Forall_cons in Hall as [Hev Hall].
  destruct (IH (step s ev) Hall) as [IHdata IHerror].
  change (run s (ev :: evs)) with (run (step s ev) evs).
  rewrite IHdata. rewrite step_lookup in *.
  destruct (decide (key_of ev = k)) as [_|_].
  - split; [now apply slot_step_data|].
    intros Herr. apply IHerror. now apply slot_step_error.
  - split; [reflexivity|exact IHerror].
Qed.

(** *** Bookkeeping *)

Lemma balanced_start_fresh : balanced (@start T E fresh).
Proof. split; [reflexivity|]. cbn. now intros id [= <-]. Qed.

Lemma balanced_start (c : entry) : balanced c -> balanced (start c).
Proof.
  intros [Hcount _]. split; cbn; [|now intros id [= <-]].
  destruct (inFlight c); lia.
Qed.

Lemma balanced_request (c : entry) : balanced c -> balanced (request c).
Proof.
  intros Hc. unfold request.
  destruct (inFlight c); [exact Hc|]. now apply balanced_start.
Qed.

Lemma balanced_succeed (id : nat) (now : Z) (v : T) (c : entry) :
  balanced c -> balanced (succeed id now v c).
Proof.
  intros [Hcount Hlatest]. unfold succeed.
  destruct (decide (inFlight c = Some id)) as [Hfl|]; [|now split].
  rewrite Hfl in Hcount. split; cbn; [lia|discriminate].
Qed.

Lemma balanced_fail (id : nat) (e : E) (c : entry) :
  balanced c -> balanced (fail id e c).
Proof.
  intros [Hcount Hlatest]. unfold fail.
  destruct (decide (inFlight c = Some id)) as [Hfl|]; [|now split].
  rewrite Hfl in Hcount. split; cbn; [lia|discriminate].
Qed.

Lemma slot_step_balanced (ev : Event) (slot : option entry) (c' : entry) :
  (forall c, slot = Some c -> balanced c) ->
  slot_step ev slot = Some c' -> balanced c'.
Proof.
  intros Hslot.
  destruct ev as [k|k|k now|k|k id now v|k id e|k id];
    cbn [Cache.slot_step]; destruct slot as [c|]; cbn;
    try discriminate; try specialize (Hslot c eq_refl).
  - destruct (data c); intros [= <-]; auto using balanced_request.
  - intros [= <-]. apply balanced_start_fresh.
  - intros [= <-]. now apply balanced_start.
  - destruct (due interval c now); intros [= <-];
      auto using balanced_request.
  - destruct on_visibility_regain; cbn; intros [= <-];
      auto using balanced_request.
  - now destruct on_visibility_regain.
  - intros [= <-]. now apply balanced_succeed.
  - intros [= <-]. now apply balanced_fail.
  - intros [= <-]. now apply balanced_fail.
Qed.

(** Every slot of a cache that started empty is balanced. *)
Lemma run_balanced (evs : list Event) (k : string) (c : entry) :
  run ∅ evs !! k = Some c -> balanced c.
Proof.
  revert k c. induction evs as [|ev evs IH] using rev_ind; intros k c.
  - cbn. now rewrite lookup_empty.
  - rewrite run_snoc, step_lookup.
    destruct (decide (key_of ev = k)) as [_|_]; [|apply IH].
    apply slot_step_balanced. apply IH.
Qed.

End CacheRuns.

Section CacheClaims.
Import Cache.
Context {T E : Type}.
Variable interval : Z.
Variable on_visibility_regain : bool.
Variable timeout_error : E.

Local Abbreviation entry := (@CacheEntry T E).
Local Abbreviation cache := (gmap string (@CacheEntry T E)).
Local Abbreviation step := (Cache.step interval on_visibility_regain timeout_error).
Local Abbreviation run := (Cache.run interval on_visibility_regain timeout_error).
Local Abbreviation observe := (@Cache.observe T E).

(** C6.  When the outstanding fetch of a key fails, with an error of its
    own or by timeout, the slot's error is set and its data stays what it
    was; as long as no fetch succeeds afterwards, whatever else happens,
    the hook reports isError and still hands out that data; the next
    successful fetch of the key clears the error. *)
Theorem C6_failure_keeps_data (s : cache) (k : string) (c : entry)
    (id : nat) (e : E) (failure : Event) (later : list Event) :
  s !! k = Some c ->
  inFlight c = Some id ->
  failure = Failure k id e \/ (failure = Timeout k id /\ e = timeout_error) ->
  Forall (fun ev => is_success ev = false) later ->
  let failed := step s failure in
  let s' := run failed later in
  (failed !! k ≫= error = Some e /\ failed !! k ≫= data = data c) /\
  s' !! k ≫= data = data c /\
  is_Some (Hooks.isError (observe s' k)) /\
  Hooks.value (observe s' k) = data c /\
  (forall c' id' now v,
      s' !! k = Some c' -> inFlight c' = Some id' ->
      Hooks.isError (observe (step s' (Success k id' now v)) k) = None).
Proof.
  intros Hk Hfl Hfailure Hlater failed s'.
  assert (Hfailed : failed !! k = Some (fail id e c)).
  { subst failed. rewrite step_lookup.
    destruct Hfailure as [->|[-> ->]]; cbn [key_of Cache.slot_step];
      (destruct (decide (k = k)); [|congruence]); now rewrite Hk. }
  assert (Hfail : fail id e c
                  = mkEntry (data c) (Some e) (lastFetchedAt c) None
                            (started c) (S (closed c))).
  { unfold fail. now destruct (decide (inFlight c = Some id)). }
  rewrite Hfail in Hfailed.
  destruct (run_without_success interval on_visibility_regain timeout_error
              later failed k Hlater) as [Hdata Herror].
  rewrite Hfailed in Hdata, Herror. cbn in Hdata, Herror.
  split; [now rewrite Hfailed|].
  split; [exact Hdata|].
  split; [apply Herror; eauto|].
  split; [exact Hdata|].
  intros c' id' now v Hk' Hfl'. unfold Cache.observe. cbn [Hooks.hook_result
    Hooks.isError Hooks.error].
  rewrite step_lookup. cbn [key_of Cache.slot_step].
  destruct (decide (k = k)); [|congruence].
  rewrite Hk'. cbn. unfold succeed.
  now destruct (decide (inFlight c' = Some id')).
Qed.

(** C7.  In a cache that started empty, let a fetch of a key be outstanding
    (request [earlier]) when refresh() starts another one (request
    [later]), so that the two are in progress together.  In whichever
    order the two answers arrive, once both are in the data is the answer
    to [later], the request started last; the answer to [earlier] is
    discarded when it arrives, be it a value or a failure. *)
Theorem C7_last_request_wins (evs : list Event) (k : string) (c : entry)
    (earlier : nat) (t1 t2 : Z) (v1 v2 : T) (e1 : E) :
  run ∅ evs !! k = Some c ->
  inFlight c = Some earlier ->
  let later := started c in
  let s := step (run ∅ evs) (Refresh k) in
  ((earlier < later)%nat /\
   s !! k ≫= inFlight = Some later /\
   calls s k = S (calls (run ∅ evs) k)) /\
  run s [Success k later t2 v2; Success k earlier t1 v1] !! k ≫= data
  = Some v2 /\
  run s [Success k earlier t1 v1; Success k later t2 v2] !! k ≫= data
  = Some v2 /\
  step s (Success k earlier t1 v1) !! k = s !! k /\
  step s (Failure k earlier e1) !! k = s !! k.
Proof.
  intros Hk Hfl later s.
  destruct (run_balanced _ _ _ evs k c Hk) as [_ Hlatest].
  pose proof (Hlatest earlier Hfl) as Hearlier.
  assert (Hs : s !! k = Some (start c)).
  { subst s. rewrite step_lookup. cbn [key_of Cache.slot_step].
    destruct (decide (k = k)); [|congruence]. now rewrite Hk. }
  assert (Hstale : succeed earlier t1 v1 (start c) = start c /\
                   fail earlier e1 (start c) = start c).
  { unfold succeed, fail. cbn [inFlight start].
    destruct (decide (Some (started c) = Some earlier)) as [[= Heq]|];
      [lia|now split]. }
  assert (Hwins : succeed later t2 v2 (start c)
                  = mkEntry (Some v2) None (Some t2) None
                            (started (start c)) (S (closed (start c)))).
  { unfold succeed. cbn [inFlight start].
    now destruct (decide (Some (started c) = Some later)). }
  assert (Hdiscard : step s (Success k earlier t1 v1) !! k = s !! k).
  { rewrite step_lookup. cbn [key_of Cache.slot_step].
    destruct (decide (k = k)); [|congruence].
    rewrite Hs. cbn. now rewrite (proj1 Hstale). }
  split.
  { split; [subst later; lia|]. split; [now rewrite Hs|].
    unfold calls. now rewrite Hs, Hk. }
  split.
  { cbn [Cache.run fold_left]. rewrite !step_lookup.
    cbn [key_of Cache.slot_step].
    destruct (decide (k = k)); [|congruence].
    rewrite Hs. cbn. rewrite Hwins. unfold succeed. cbn [inFlight].
    now destruct (decide (None = Some earlier)). }
  split.
  { cbn [Cache.run fold_left]. rewrite step_lookup.
    cbn [key_of Cache.slot_step].
    destruct (decide (k = k)); [|congruence].
    rewrite Hdiscard, Hs. cbn. now rewrite Hwins. }
  split; [exact Hdiscard|].
  rewrite step_lookup. cbn [key_of Cache.slot_step].
  destruct (decide (k = k)); [|congruence].
  rewrite Hs. cbn. now rewrite (proj2 Hstale).
Qed.


End CacheClaims.

(** A forecast key whose first fetch succeeded (42) and whose refresh then
    timed out, after which refresh() is called again, that fetch fails,
    and the tab regains visibility: the 42 is still handed out, with
    isError. *)
Lemma C6_failure_keeps_data_witness :
  let k := "/forecast/washington_dc" in
  let timeout := "Request timeout" in
  let s : gmap string (@Cache.CacheEntry Z string) :=
    Cache.run 300000 false timeout ∅
      [Cache.Subscribe k; Cache.Success k 0 120 42; Cache.Refresh k] in
  let s' :=
    Cache.run 300000 false timeout
      (Cache.step 300000 false timeout s (Cache.Timeout k 1))
      [Cache.Refresh k; Cache.Failure k 2 "HTTP 503: Service Unavailable";
       Cache.VisibilityRegained k] in
  s' !! k ≫= Cache.data = Some 42 /\
  is_Some (Hooks.isError (Cache.observe s' k)) /\
  Hooks.value (Cache.observe s' k) = Some 42.
Proof.
  intros k timeout s s'.
  pose proof (C6_failure_keeps_data 300000 false timeout s k
                (Cache.mkEntry (Some 42) None (Some 120) (Some 1%nat) 2 1)
                1 timeout (Cache.Timeout k 1)
                [Cache.Refresh k;
                 Cache.Failure k 2 "HTTP 503: Service Unavailable";
                 Cache.VisibilityRegained k]
                eq_refl eq_refl (or_intror (conj eq_refl eq_refl))
                ltac:(repeat constructor)) as H.
  cbv zeta in H. destruct H as (_ & Hdata & Herr & Hvalue & _).
  exact (conj Hdata (conj Herr Hvalue)).
Defined.

(** The first fetch of a forecast key (request 0) is outstanding when
    refresh() sends request 1; the answer to request 1 (175) arrives, and
    then the answer to request 0 (42): the data is 175. *)
Lemma C7_last_request_wins_witness :
  let k := "/forecast/washington_dc" in
  let timeout := "Request timeout" in
  let s : gmap string (@Cache.CacheEntry Z string) :=
    Cache.run 300000 false timeout ∅ [Cache.Subscribe k; Cache.Refresh k] in
  Cache.calls s k = 2%nat /\
  Cache.run 300000 false timeout s
    [Cache.Success k 1 12000 175; Cache.Success k 0 15000 42] !! k
    ≫= Cache.data
  = Some 175.
Proof.
  intros k timeout s. split; [reflexivity|].
  pose proof (C7_last_request_wins 300000 false timeout
                [Cache.Subscribe k] k
                (Cache.mkEntry None None None (Some 0%nat) 1 0)
                0 15000 12000 42 175 timeout eq_refl eq_refl) as H.
  cbv zeta in H. destruct H as (_ & Hlater_first & _).
  exact Hlater_first.
Defined.



(** ** Development mode *)

Section DevelopmentMode.
Import Async Api.
Context {Json : Type}.

(** The development branch always resolves, within 2 seconds. *)
Lemma apiRequest_development_resolves (endpoint : string)
    (net : network Json) :
  exists t v,
    apiRequest_development endpoint net = SettlesAt t (Resolved v) /\
    t <= 2000.
Proof.
  unfold apiRequest_development.
  destruct net as [t r|t e|]; cbn [fetch].
  - destruct (Z.ltb_spec t 2000) as [Ht|Ht]; [|eauto with lia].
    destruct (ok r); [|eauto with lia].
    destruct (json_armed t (resp_body r) 2000 TimeoutError) as (t' & o & -> & Ht');
      [lia|].
    destruct o; eauto.
  - destruct (Z.ltb_spec t 2000); eauto with lia.
  - eauto with lia.
Qed.

(** Whenever the backend did not deliver: no answer in time, a network
    failure, a status outside 2xx, or a body that is not JSON. *)
Lemma apiRequest_development_mock (endpoint : string) (net : network Json) :
  let mock t := SettlesAt t (Resolved (Mock (getMockData endpoint))) in
  ((forall t, answer_time net = Some t -> 2000 <= t) ->
   apiRequest_development endpoint net = mock 2000) /\
  (forall t e, net = Fails t e -> t < 2000 ->
   apiRequest_development endpoint net = mock t) /\
  (forall t r, net = Responds t r -> t < 2000 -> ok r = false ->
   apiRequest_development endpoint net = mock t) /\
  (forall t r dt, net = Responds t r -> t < 2000 -> ok r = true ->
   resp_body r = BodyInvalid dt ->
   apiRequest_development endpoint net = mock (Z.min (t + dt) 2000)).
Proof.
  intros mock. subst mock. unfold apiRequest_development. repeat split.
  - intros Hlate. now rewrite (fetch_late net _ _ Hlate).
  - intros t e -> Ht. cbn [fetch].
    now destruct (Z.ltb_spec t 2000); [|lia].
  - intros t r -> Ht Hok. cbn [fetch].
    destruct (Z.ltb_spec t 2000); [|lia]. now rewrite Hok.
  - intros t r dt -> Ht Hok Hbody. cbn [fetch].
    destruct (Z.ltb_spec t 2000); [|lia]. rewrite Hok, Hbody. cbn.
    destruct (Z.ltb_spec (t + dt) 2000).
    + now rewrite Z.min_l by lia.
    + now rewrite Z.min_r by lia.
Qed.

(** What the cache sees of a request served in development mode is a
    successful fetch. *)
Lemma outcome_development (env : ProcessEnv) (endpoint : string)
    (net : network Json) (k : string) (id : nat) (t0 : Z) :
  is_development env = true ->
  Cache.is_success
    (Cache.outcome REQUEST_TIMEOUT k id t0
       (result (apiRequest env endpoint net))) = true.
Proof.
  intros Hmode. unfold apiRequest. rewrite Hmode. cbn [result].
  destruct (apiRequest_development_resolves endpoint net)
    as (t & v & -> & Ht).
  cbn [Cache.outcome]. unfold REQUEST_TIMEOUT.
  now destruct (Z.ltb_spec t 10000); [|lia].
Qed.

End DevelopmentMode.

Section CacheWithoutFailures.
Import Cache.
Context {T E : Type}.
Variable interval : Z.
Variable on_visibility_regain : bool.
Variable timeout_error : E.

Local Abbreviation run := (@Cache.run T E interval on_visibility_regain timeout_error).
Local Abbreviation slot_step :=
  (@Cache.slot_step T E interval on_visibility_regain timeout_error).

Lemma slot_step_no_error (ev : Event) (slot : option CacheEntry) :
  is_trigger ev = true \/ is_success ev = true ->
  slot ≫= error = None -> slot_step ev slot ≫= error = None.
Proof.
  intros Hev.
  destruct ev as [k|k|k now|k|k id now v|k id e|k id];
    try (destruct Hev; discriminate);
    cbn [Cache.slot_step]; destruct slot as [c|]; cbn; try reflexivity.
  - destruct (data c); cbn; [tauto|].
    now rewrite (proj2 (request_keeps c)).
  - tauto.
  - destruct (due interval c now); [|tauto].
    now rewrite (proj2 (request_keeps c)).
  - destruct on_visibility_regain; cbn; [|tauto].
    now rewrite (proj2 (request_keeps c)).
  - now destruct on_visibility_regain.
  - unfold succeed. now destruct (decide _).
Qed.

(** A cache that started empty and saw no failure holds no error. *)
Lemma run_no_error (evs : list Event) (k : string) :
  Forall (fun ev => is_trigger ev = true \/ is_success ev = true) evs ->
  run ∅ evs !! k ≫= error = None.
Proof.
  induction evs as [|ev evs IH] using rev_ind; intros Hall.
  - cbn. now rewrite lookup_empty.
  - apply Forall_app in Hall as [Hevs Hev].
    apply Forall_cons in Hev as [Hev _].
    rewrite run_snoc, step_lookup.
    destruct (decide (key_of ev = k)) as [_|_]; [|now apply IH].
    apply slot_step_no_error; [exact Hev|now apply IH].
Qed.

End CacheWithoutFailures.

(** C10.  When NODE_ENV is 'development', apiRequest is never rejected: it
    always resolves, at the latest 2 seconds after the call (not 10).  It
    resolves with getMockData(endpoint) whenever the backend did not
    deliver: no answer within the 2 seconds, a failed request, a status
    that is not 2xx, or a 2xx answer whose body is not JSON, never ends,
    or is not read by the 2 seconds; only a 2xx answer read in time gives
    the backend's data.  The mock data depends on the endpoint: the mock
    forecast for '/forecast/<location>', the forecasts of all locations
    for '/forecast', the mock alerts for '/alerts/<location>', the empty
    object otherwise.  A cache fed by this fetcher only ever sees
    successful fetches, so no hook reports isError. *)
Theorem C10_development_never_rejects {Json : Type} (env : Api.ProcessEnv)
    (endpoint : string) (net : Async.network Json) :
  Api.is_development env = true ->
  let answer := Async.result (Api.apiRequest env endpoint net) in
  let mock t :=
    Async.SettlesAt t (Async.Resolved (Api.Mock (Api.getMockData endpoint))) in
  (exists t v, answer = Async.SettlesAt t (Async.Resolved v) /\
               t <= 2000 /\ 2000 < Api.REQUEST_TIMEOUT) /\
  (((forall t, Async.answer_time net = Some t -> 2000 <= t) ->
    answer = mock 2000) /\
   (forall t e, net = Async.Fails t e -> t < 2000 -> answer = mock t) /\
   (forall t r, net = Async.Responds t r -> t < 2000 ->
      Async.ok r = false -> answer = mock t) /\
   (forall t r, net = Async.Responds t r -> t < 2000 -> Async.ok r = true ->
      match Async.resp_body r with
      | Async.BodyInvalid dt => answer = mock (Z.min (t + dt) 2000)
      | Async.BodyStalls => answer = mock 2000
      | Async.BodyJson dt j =>
          (2000 <= t + dt -> answer = mock 2000) /\
          (t + dt < 2000 ->
           answer = Async.SettlesAt (t + dt) (Async.Resolved (Api.Backend j)))
      end)) /\
  (Api.getMockData endpoint
   = (if Async.includes "/forecast/" endpoint then Api.mockForecastData
      else if Async.includes "/forecast" endpoint then Api.mockAllForecasts
      else if Async.includes "/alerts/" endpoint then Api.mockAlerts
      else Api.mockEmpty) /\
   (forall location,
       Api.getMockData (Hooks.getForecast location) = Api.mockForecastData) /\
   map Api.getMockData
     [Hooks.getAllForecasts; Hooks.getAlerts "washington_dc";
      Hooks.getSystemStatus; Hooks.getHealthRecommendations "washington_dc";
      Hooks.getLocations]
   = [Api.mockAllForecasts; Api.mockAlerts; Api.mockEmpty; Api.mockEmpty;
      Api.mockEmpty]) /\
  (forall (interval : Z) (on_visibility_regain : bool)
          (timeout_error : Async.JsError)
          (evs : list (@Cache.Event (Api.Payload Json) Async.JsError)),
      Forall (fun ev =>
                Cache.is_trigger ev = true \/
                exists k id t0 endpoint' net',
                  ev = Cache.outcome Api.REQUEST_TIMEOUT k id t0
                         (Async.result (Api.apiRequest env endpoint' net')))
             evs ->
      forall k,
        Hooks.isError
          (Cache.observe
             (Cache.run interval on_visibility_regain timeout_error ∅ evs) k)
        = None).
Proof.
  intros Hmode answer mock.
  assert (Hanswer : answer = Api.apiRequest_development endpoint net).
  { subst answer. unfold Api.apiRequest. now rewrite Hmode. }
  destruct (apiRequest_development_mock endpoint net)
    as (Hlate & Hfail & Hstatus & Hinvalid).
  rewrite Hanswer. subst mock.
  split.
  { destruct (apiRequest_development_resolves endpoint net)
      as (t & v & Heq & Ht).
    exists t, v. split; [exact Heq|]. split; [exact Ht|reflexivity]. }
  split.
  { split; [exact Hlate|]. split; [exact Hfail|]. split; [exact Hstatus|].
    intros t r -> Ht Hok. destruct (Async.resp_body r) as [dt j|dt|] eqn:Hbody.
    - unfold Api.apiRequest_development. cbn [Async.fetch].
      destruct (Z.ltb_spec t 2000); [|lia]. rewrite Hok, Hbody. cbn.
      destruct (Z.ltb_spec (t + dt) 2000); split; intros; (reflexivity || lia).
    - now apply Hinvalid with (r := r).
    - unfold Api.apiRequest_development. cbn [Async.fetch].
      destruct (Z.ltb_spec t 2000); [|lia]. now rewrite Hok, Hbody. }
  split.
  { split; [reflexivity|]. split; [intros [|a location]|]; reflexivity. }
  intros interval vis timeout_error evs Hevs k.
  change (Cache.run interval vis timeout_error ∅ evs !! k ≫= Cache.error
          = None).
  apply run_no_error. eapply Forall_impl; [exact Hevs|].
  intros ev [Htrigger|(k' & id & t0 & endpoint' & net' & ->)];
    [now left|right].
  now apply outcome_development.
Qed.

(** In development mode a backend that answers 503 after 150 ms gives the
    mock forecast at 150 ms. *)
Lemma C10_development_never_rejects_witness :
  let env := Api.mkEnv None (Some "development") in
  let net : Async.network unit :=
    Async.Responds 150
      (Async.mkResponse 503 "Service Unavailable" Async.BodyStalls) in
  Async.result (Api.apiRequest env (Hooks.getForecast "washington_dc") net)
  = Async.SettlesAt 150 (Async.Resolved (Api.Mock Api.mockForecastData)).
Proof.
  intros env net.
  pose proof (C10_development_never_rejects env
                (Hooks.getForecast "washington_dc") net eq_refl) as H.
  cbv zeta in H. destruct H as (_ & (_ & _ & Hstatus & _) & _).
  exact (Hstatus 150 _ eq_refl ltac:(lia) eq_refl).
Defined.

(** Once the headers are in, the production branch has cleared its timer:
    a body that never ends leaves apiRequest pending. *)
Example apiRequest_production_body_stalls :
  Async.result
    (Api.apiRequest (Api.mkEnv None (Some "production")) "/data/status"
       (Async.Responds 100
          (Async.mkResponse (Json:=unit) 200 "OK" Async.BodyStalls)))
  = Async.Pending.
Proof. reflexivity. Qed.

(** lib/api.js has no development branch: its apiRequest behaves as the
    production branch does, whatever the environment. *)
Lemma ApiJs_apiRequest_timeout {Json : Type} (base endpoint : string)
    (net : Async.network Json) :
  (forall t, Async.answer_time net = Some t -> 10000 <= t) ->
  ApiJs.apiRequest base endpoint net
  = Async.mkRun [base ++ endpoint]
      (Async.SettlesAt 10000
         (Async.Rejected (Async.mkError "Error" "Request timeout"))).
Proof.
  intros Hlate. unfold ApiJs.apiRequest.
  now rewrite (fetch_late net _ _ Hlate).
Qed.

(* ===================================================================== *)
(** * Further properties of the code *)
(* ===================================================================== *)

(** ** getAQILevel, for every input *)

Section ClassifierRange.
Import JS Constants.

Lemma scan_some (entries : list (string * AQILevel)) (aqi : number)
    (key : string) (l : AQILevel) :
  scan entries aqi = Some (key, l) ->
  In (key, l) entries /\ in_band aqi l = true.
Proof.
  induction entries as [|[k b] rest IH]; [discriminate|].
  cbn [scan]. destruct (in_band aqi b) eqn:Hb.
  - intros [= <- <-]. split; [now left|exact Hb].
  - intros Hrest. destruct (IH Hrest). split; [now right|assumption].
Qed.

Lemma scan_none (entries : list (string * AQILevel)) (aqi : number) :
  scan entries aqi = None ->
  forall entry, In entry entries -> in_band aqi (snd entry) = false.
Proof.
  induction entries as [|[k b] rest IH]; [intros _ entry []|].
  cbn [scan]. destruct (in_band aqi b) eqn:Hb; [discriminate|].
  intros Hrest entry [<-|Hin]; [exact Hb|now apply IH].
Qed.

(** Whatever the input, NaN and the infinities included, getAQILevel
    returns one of the six bands of the table; the band holds the input,
    unless no band does, and then it is the "Good" band. *)
Theorem getAQILevel_band_or_fallback (aqi : number) :
  (exists key, In (key, getAQILevel aqi) AQI_LEVELS) /\
  (in_band aqi (getAQILevel aqi) = true \/
   (getAQILevel aqi = good /\
    forall entry, In entry AQI_LEVELS -> in_band aqi (snd entry) = false)).
Proof.
  unfold getAQILevel.
  destruct (scan AQI_LEVELS aqi) as [[key l]|] eqn:Hscan.
  - destruct (scan_some _ _ _ _ Hscan) as [Hin Hband].
    split; [now exists key|now left].
  - split; [exists "good"; now left|].
    right. split; [reflexivity|]. now apply scan_none.
Qed.

(** The loop on an integer, as a chain of tests. *)
Lemma getAQILevel_of_Z (z : Z) :
  getAQILevel (of_Z z)
  = if (0 <=? z) && (z <=? 50) then good
    else if (51 <=? z) && (z <=? 100) then moderate
    else if (101 <=? z) && (z <=? 150) then unhealthySensitive
    else if (151 <=? z) && (z <=? 200) then unhealthy
    else if (201 <=? z) && (z <=? 300) then veryUnhealthy
    else if (301 <=? z) && (z <=? 500) then hazardous
    else good.
Proof.
  unfold getAQILevel, AQI_LEVELS, scan. rewrite !in_band_of_Z.
  cbn [min max good moderate unhealthySensitive unhealthy veryUnhealthy
       hazardous].
  repeat match goal with
  | |- context [if ?c then _ else _] => destruct c; try reflexivity
  end.
Qed.

(** On the integers from 0 to 500 a higher reading never gets a lower
    band. *)
Theorem getAQILevel_monotone (a b : Z) :
  0 <= a -> a <= b -> b <= 500 ->
  min (getAQILevel (of_Z a)) <= min (getAQILevel (of_Z b)).
Proof.
  intros Ha Hab Hb. rewrite !getAQILevel_of_Z.
  repeat match goal with
  | |- context [?x <=? ?y] =>
      destruct (Z.leb_spec x y); cbn [andb]; try lia
  end; cbn; lia.
Qed.

End ClassifierRange.

Lemma getAQILevel_monotone_witness :
  Constants.min (Constants.getAQILevel (JS.of_Z 100))
  <= Constants.min (Constants.getAQILevel (JS.of_Z 101)).
Proof. apply (getAQILevel_monotone 100 101); lia. Defined.
(** ** getLocationName *)

Section LocationNames.
Import Locations.

(** The slot of a key in LOCATIONS, read off the object literal. *)
Lemma LOCATIONS_lookup (key : string) :
  LOCATIONS !! key
  = if decide (key = "Washington_DC") then
      Some (mkLocation (389072 # 10000) (-770369 # 10000)
              "Washington, DC" "America/New_York")
    else if decide (key = "Los_Angeles") then
      Some (mkLocation (340522 # 10000) (-1182437 # 10000)
              "Los Angeles, CA" "America/Los_Angeles")
    else if decide (key = "New_York") then
      Some (mkLocation (407128 # 10000) (-740060 # 10000)
              "New York, NY" "America/New_York")
    else if decide (key = "Chicago") then
      Some (mkLocation (418781 # 10000) (-876298 # 10000)
              "Chicago, IL" "America/Chicago")
    else if decide (key = "Houston") then
      Some (mkLocation (297604 # 10000) (-953698 # 10000)
              "Houston, TX" "America/Chicago")
    else None.
Proof.
  unfold LOCATIONS. rewrite !lookup_insert, lookup_empty.
  repeat (case_decide; subst; try congruence).
Qed.

(** The display name of a key is one of the five names, "Object", or the
    key itself; asking for the display name of a display name changes
    nothing, so a name can be passed where a key is expected. *)
Theorem getLocationName_idempotent (key : string) :
  getLocationName (getLocationName key) = getLocationName key.
Proof.
  assert (Hcases : getLocationName key = key \/
                   In (getLocationName key)
                      ["Washington, DC"; "Los Angeles, CA"; "New York, NY";
                       "Chicago, IL"; "Houston, TX"; "Object"]).
  { unfold getLocationName. rewrite LOCATIONS_lookup.
    repeat (case_decide; [right; cbn; tauto|]).
    destruct (String.eqb_spec key "constructor"); [right; cbn; tauto|].
    now left. }
  destruct Hcases as [Hsame|Hname].
  - now rewrite Hsame.
  - cbn in Hname.
    repeat (destruct Hname as [<-|Hname]; [reflexivity|]).
    contradiction.
Qed.

(** A key that is neither one of the five locations nor "constructor" is
    shown as it is. *)
Theorem getLocationName_unknown (key : string) :
  LOCATIONS !! key = None -> key <> "constructor" ->
  getLocationName key = key.
Proof.
  intros Hnone Hctor. unfold getLocationName. rewrite Hnone.
  now destruct (String.eqb_spec key "constructor").
Qed.

End LocationNames.

Lemma getLocationName_unknown_witness :
  Locations.getLocationName "Seattle" = "Seattle".
Proof.
  apply (getLocationName_unknown "Seattle"); [reflexivity|discriminate].
Defined.
(** ** The shape of a formatted number *)

Section FixedDecimals.
Import JS JSMath.

Lemma append_cons (c : ascii) (s1 s2 : string) :
  String c s1 ++ s2 = String c (s1 ++ s2).
Proof. reflexivity. Qed.

Lemma length_append (s1 s2 : string) :
  String.length (s1 ++ s2) = (String.length s1 + String.length s2)%nat.
Proof.
  induction s1 as [|c s1 IH]; [reflexivity|].
  rewrite append_cons. cbn [String.length]. now rewrite IH.
Qed.

Lemma length_zeros (k : nat) : String.length (zeros k) = k.
Proof. induction k as [|k IH]; cbn; [reflexivity|now rewrite IH]. Qed.

Lemma length_drop (k : nat) (s : string) :
  String.length (drop k s) = (String.length s - k)%nat.
Proof.
  revert s. induction k as [|k IH]; intros [|c s]; cbn; try reflexivity.
  apply IH.
Qed.

Lemma take_nonempty (k : nat) (s : string) :
  (0 < k)%nat -> s <> "" -> take k s <> "".
Proof. intros Hk Hs. destruct k; [lia|]. now destruct s. Qed.

Lemma all_digits_append (s1 s2 : string) :
  all_digits (s1 ++ s2) = all_digits s1 && all_digits s2.
Proof.
  induction s1 as [|c s1 IH]; [reflexivity|].
  rewrite append_cons. cbn [all_digits]. now rewrite IH, andb_assoc.
Qed.

Lemma all_digits_zeros (k : nat) : all_digits (zeros k) = true.
Proof. induction k as [|k IH]; cbn; [reflexivity|exact IH]. Qed.

Lemma all_digits_take (k : nat) (s : string) :
  all_digits s = true -> all_digits (take k s) = true.
Proof.
  revert s. induction k as [|k IH]; intros [|c s]; cbn; try reflexivity.
  intros [Hc Hs]%andb_prop. rewrite Hc. now apply IH.
Qed.

Lemma all_digits_drop (k : nat) (s : string) :
  all_digits s = true -> all_digits (drop k s) = true.
Proof.
  revert s. induction k as [|k IH]; intros [|c s]; cbn; try tauto.
  intros [_ Hs]%andb_prop. now apply IH.
Qed.

Lemma digit_char_is_digit (n : Z) :
  all_digits (String (digit_char (n mod 10)) "") = true.
Proof.
  pose proof (Z.mod_pos_bound n 10 ltac:(lia)) as Hmod.
  unfold digit_char. cbn [all_digits]. rewrite nat_ascii_embedding by lia.
  rewrite andb_true_r. apply andb_true_intro.
  split; apply Nat.leb_le; lia.
Qed.

Lemma digits_aux_digits (fuel : nat) (n : Z) (acc : string) :
  all_digits acc = true -> all_digits (digits_aux fuel n acc) = true.
Proof.
  revert n acc. induction fuel as [|fuel IH]; intros n acc Hacc;
    [exact Hacc|].
  cbn [digits_aux].
  assert (Hstep : all_digits (String (digit_char (n mod 10)) acc) = true).
  { change (String (digit_char (n mod 10)) acc)
      with (String (digit_char (n mod 10)) "" ++ acc).
    now rewrite all_digits_append, digit_char_is_digit. }
  destruct (n / 10 =? 0); [exact Hstep|now apply IH].
Qed.

Lemma digits_aux_nonempty (fuel : nat) (n : Z) (acc : string) :
  digits_aux (S fuel) n acc <> "".
Proof.
  revert n acc. induction fuel as [|fuel IH]; intros n acc.
  - cbn. now destruct (n / 10 =? 0).
  - change (digits_aux (S (S fuel)) n acc)
      with (let acc' := String (digit_char (n mod 10)) acc in
            if n / 10 =? 0 then acc'
            else digits_aux (S fuel) (n / 10) acc').
    cbv zeta. destruct (n / 10 =? 0); [discriminate|apply IH].
Qed.

Lemma digits_are_digits (n : Z) :
  all_digits (digits n) = true /\ digits n <> "".
Proof.
  split; [now apply digits_aux_digits|apply digits_aux_nonempty].
Qed.

(** With 1 to 100 decimals, a finite number below 10^21 in magnitude is
    written as an optional minus sign, at least one digit, a point, and
    exactly [decimals] digits; in particular never as the placeholder. *)
Theorem formatNumber_fixed_decimals (Number_toString : Q -> string)
    (q : Q) (decimals : Z) :
  1 <= decimals <= 100 ->
  (Qabs q < inject_Z (10 ^ 21))%Q ->
  exists sign whole frac,
    Constants.formatNumber Number_toString (Num (Fin q)) (Some decimals)
    = Normal (sign ++ whole ++ "." ++ frac) /\
    (sign = "" \/ sign = "-") /\
    whole <> "" /\ all_digits whole = true /\
    String.length frac = Z.to_nat decimals /\ all_digits frac = true /\
    sign ++ whole ++ "." ++ frac <> "--".
Proof.
  intros [Hlo Hhi] Hsmall.
  unfold Constants.formatNumber, toFixed.
  cbn [default from_option id parseFloat].
  replace ((decimals <? 0) || (100 <? decimals)) with false
    by (symmetry; apply orb_false_iff; split; apply Z.ltb_ge; lia).
  unfold toFixed_finite.
  set (x := if Qle_bool 0 q then q else Qopp q).
  assert (Hx : Qle_bool (inject_Z (10 ^ 21)) x = false).
  { apply Qle_bool_false. subst x.
    destruct (Qle_bool 0 q) eqn:Hsign.
    - apply Qle_bool_iff in Hsign. now rewrite Qabs_pos in Hsmall.
    - apply Qle_bool_false in Hsign.
      now rewrite Qabs_neg in Hsmall by (apply Qlt_le_weak; exact Hsign). }
  rewrite Hx.
  replace (decimals =? 0) with false by (symmetry; apply Z.eqb_neq; lia).
  set (m0 := if nearest_scaled x decimals =? 0 then "0"
             else digits (nearest_scaled x decimals)).
  assert (Hm0 : all_digits m0 = true /\ m0 <> "").
  { subst m0. destruct (nearest_scaled x decimals =? 0);
      [now split|apply digits_are_digits]. }
  set (fd := Z.to_nat decimals).
  set (m1 := if (String.length m0 <=? fd)%nat
             then zeros (fd + 1 - String.length m0) ++ m0 else m0).
  assert (Hm1 : all_digits m1 = true /\ (fd + 1 <= String.length m1)%nat).
  { subst m1. destruct (Nat.leb_spec (String.length m0) fd).
    - rewrite all_digits_append, all_digits_zeros, length_append,
        length_zeros. split; [apply Hm0|lia].
    - split; [apply Hm0|lia]. }
  destruct Hm1 as [Hdigits Hlen].
  exists (if Qle_bool 0 q then "" else "-"),
         (take (String.length m1 - fd) m1),
         (drop (String.length m1 - fd) m1).
  split; [reflexivity|].
  split; [destruct (Qle_bool 0 q); tauto|].
  assert (Hwhole : take (String.length m1 - fd) m1 <> "").
  { apply take_nonempty; [lia|]. intros ->. cbn in Hlen. lia. }
  split; [exact Hwhole|].
  split; [now apply all_digits_take|].
  split; [rewrite length_drop; lia|].
  split; [now apply all_digits_drop|].
  pose proof (all_digits_take (String.length m1 - fd) m1 Hdigits) as Htake.
  destruct (take (String.length m1 - fd) m1) as [|c rest] eqn:Hw;
    [contradiction|].
  cbn [all_digits] in Htake.
  apply andb_prop in Htake as [[Hc _]%andb_prop _].
  apply Nat.leb_le in Hc.
  assert (Hminus : c <> "-"%char).
  { intros ->. vm_compute in Hc. lia. }
  destruct (Qle_bool 0 q); rewrite ?append_cons; intros Heq.
  - change ("" ++ String c (rest ++ "." ++ drop (String.length m1 - fd) m1))
      with (String c (rest ++ "." ++ drop (String.length m1 - fd) m1))
      in Heq.
    injection Heq as Hc' _. contradiction.
  - change ("-" ++ String c (rest ++ "." ++ drop (String.length m1 - fd) m1))
      with (String "-"
              (String c (rest ++ "." ++ drop (String.length m1 - fd) m1)))
      in Heq.
    injection Heq as Hc' _. contradiction.
Qed.

End FixedDecimals.

Lemma formatNumber_fixed_decimals_witness :
  exists sign whole frac,
    Constants.formatNumber (fun _ => "") (JS.Num JS.double_42_567) (Some 1)
    = JS.Normal (sign ++ whole ++ "." ++ frac) /\
    (sign = "" \/ sign = "-") /\
    whole <> "" /\ JSMath.all_digits whole = true /\
    String.length frac = Z.to_nat 1 /\ JSMath.all_digits frac = true /\
    sign ++ whole ++ "." ++ frac <> "--".
Proof.
  apply (formatNumber_fixed_decimals (fun _ => "")
           (5990772666821247 # 140737488355328) 1); [lia|reflexivity].
Defined.
(** ** apiRequest: when it resolves, and with what *)

Section ApiRequestResolves.
Import Async Api.
Context {Json : Type}.

(** Outside development mode apiRequest resolves only with what the
    backend sent, never with mock data: it resolves exactly when the
    headers arrive before the 10 seconds are over, the status is 2xx and
    the body parses, and then with the parsed body, once it is read. *)
Theorem apiRequest_production_resolves (env : ProcessEnv)
    (endpoint : string) (net : network Json) (t : Z) (v : Payload Json) :
  is_development env = false ->
  result (apiRequest env endpoint net) = SettlesAt t (Resolved v) <->
  exists t0 r dt j,
    net = Responds t0 r /\ t0 < REQUEST_TIMEOUT /\ ok r = true /\
    resp_body r = BodyJson dt j /\ t = t0 + dt /\ v = Backend j.
Proof.
  intros Hmode. unfold apiRequest. rewrite Hmode. cbn [result].
  unfold apiRequest_production. split.
  - destruct net as [t0 r|t0 e|]; cbn [fetch].
    + destruct (Z.ltb_spec t0 REQUEST_TIMEOUT) as [Ht0|]; [|discriminate].
      destruct (ok r) eqn:Hok; cbn [negb]; [|discriminate].
      destruct (resp_body r) as [dt j|dt|] eqn:Hbody; cbn [json];
        try discriminate.
      intros [= <- <-]. now exists t0, r, dt, j.
    + destruct (t0 <? REQUEST_TIMEOUT); discriminate.
    + discriminate.
  - intros (t0 & r & dt & j & -> & Ht0 & Hok & Hbody & -> & ->).
    cbn [fetch]. destruct (Z.ltb_spec t0 REQUEST_TIMEOUT); [|lia].
    now rewrite Hok, Hbody.
Qed.

(** In development mode the backend's answer is passed on exactly when it
    is complete before the 2 seconds are over: headers, a 2xx status and a
    parsed body; every other run resolves with the mock data of the
    endpoint. *)
Theorem apiRequest_development_backend (env : ProcessEnv)
    (endpoint : string) (net : network Json) (t : Z) (j : Json) :
  is_development env = true ->
  (result (apiRequest env endpoint net) = SettlesAt t (Resolved (Backend j))
   <-> exists t0 r dt,
         net = Responds t0 r /\ ok r = true /\
         resp_body r = BodyJson dt j /\ t0 < 2000 /\ t0 + dt < 2000 /\
         t = t0 + dt) /\
  (forall t' m,
     result (apiRequest env endpoint net) = SettlesAt t' (Resolved (Mock m))
     -> m = getMockData endpoint).
Proof.
  intros Hmode. unfold apiRequest. rewrite Hmode. cbn [result].
  unfold apiRequest_development. split; [split|].
  - destruct net as [t0 r|t0 e|]; cbn [fetch].
    + destruct (Z.ltb_spec t0 2000) as [Ht0|]; [|discriminate].
      destruct (ok r) eqn:Hok; [|discriminate].
      destruct (resp_body r) as [dt j'|dt|] eqn:Hbody; cbn [json].
      * destruct (Z.ltb_spec (t0 + dt) 2000); [|discriminate].
        intros [= <- <-]. now exists t0, r, dt.
      * destruct (t0 + dt <? 2000); discriminate.
      * discriminate.
    + destruct (t0 <? 2000); discriminate.
    + discriminate.
  - intros (t0 & r & dt & -> & Hok & Hbody & Ht0 & Hdt & ->).
    cbn [fetch]. destruct (Z.ltb_spec t0 2000); [|lia].
    rewrite Hok, Hbody. cbn [json].
    now destruct (Z.ltb_spec (t0 + dt) 2000); [|lia].
  - intros t' m.
    destruct net as [t0 r|t0 e|]; cbn [fetch].
    + destruct (t0 <? 2000); [|now intros [= _ <-]].
      destruct (ok r); [|now intros [= _ <-]].
      destruct (resp_body r) as [dt j'|dt|]; cbn [json].
      * destruct (t0 + dt <? 2000); [discriminate|now intros [= _ <-]].
      * destruct (t0 + dt <? 2000); now intros [= _ <-].
      * now intros [= _ <-].
    + destruct (t0 <? 2000); now intros [= _ <-].
    + now intros [= _ <-].
Qed.

End ApiRequestResolves.

Lemma apiRequest_production_resolves_witness :
  let net : Async.network Z :=
    Async.Responds 120 (Async.mkResponse 200 "OK" (Async.BodyJson 30 42)) in
  Async.result
    (Api.apiRequest (Api.mkEnv None (Some "production")) "/forecast/Chicago"
       net)
  = Async.SettlesAt 150 (Async.Resolved (Api.Backend 42)).
Proof.
  intros net.
  apply (apiRequest_production_resolves
           (Api.mkEnv None (Some "production")) "/forecast/Chicago" net
           150 (Api.Backend 42) eq_refl).
  exists 120, (Async.mkResponse 200 "OK" (Async.BodyJson 30 42)), 30, 42.
  repeat split.
Defined.

Lemma apiRequest_development_backend_witness :
  let net : Async.network Z :=
    Async.Responds 120 (Async.mkResponse 200 "OK" (Async.BodyJson 30 42)) in
  Async.result
    (Api.apiRequest (Api.mkEnv None (Some "development"))
       "/forecast/Chicago" net)
  = Async.SettlesAt 150 (Async.Resolved (Api.Backend 42)).
Proof.
  intros net.
  apply (proj1 (apiRequest_development_backend
                  (Api.mkEnv None (Some "development")) "/forecast/Chicago"
                  net 150 42 eq_refl)).
  exists 120, (Async.mkResponse 200 "OK" (Async.BodyJson 30 42)), 30.
  repeat split.
Defined.
(** ** The AQI card *)

Section AQICardFacts.
Import JS JSMath AQICard.
Variable Number_toString : Q -> string.

(** The card never takes its "No air quality data available" return: an
    error shows the error card, even when data is at hand; no error and
    no data shows the skeleton; data without an error shows the card. *)
Theorem AQICard_screen {E : Type} (location : string)
    (r : Hooks.SWRResponse Forecast E) :
  let screen := AQICard Number_toString location (Hooks.hook_result r) in
  (is_Some (Hooks.error r) -> screen = ErrorCard) /\
  (Hooks.error r = None -> Hooks.data r = None -> screen = Skeleton) /\
  (Hooks.error r = None -> forall forecast,
     Hooks.data r = Some forecast ->
     screen = Card (displayed_aqi forecast)
                   (Constants.getAQILevel (displayed_aqi forecast))
                   (Locations.getLocationName location)
                   (map (meter_text Number_toString (currentData forecast))
                        [key_no2; key_o3; key_hcho])) /\
  (screen = NoData -> False).
Proof.
  destruct r as [[forecast|] [e|]]; cbn;
    (split; [|split; [|split]]);
    try discriminate; try (intros [? [=]]; fail); try reflexivity.
  intros _ f [= <-]. reflexivity.
Qed.

Lemma or_else_not_NaN (a : option number) (b : number) :
  b <> NaN -> or_else a b <> NaN.
Proof.
  intros Hb. unfold or_else. destruct a as [x|]; [|exact Hb].
  destruct (truthy x) eqn:Hx; [|exact Hb]. now intros ->.
Qed.

(** In-range integers are always put in the band that holds them. *)
Lemma getAQILevel_of_Z_in_band (z : Z) :
  0 <= z <= 500 ->
  Constants.in_band (of_Z z) (Constants.getAQILevel (of_Z z)) = true.
Proof.
  intros Hz. rewrite getAQILevel_of_Z, in_band_of_Z.
  repeat match goal with
  | |- context [if (?a <=? ?b) && (?c <=? ?d) then _ else _] =>
      destruct (Z.leb_spec a b); destruct (Z.leb_spec c d); cbn [andb];
      try lia
  end;
  cbn [Constants.min Constants.max Constants.good Constants.moderate
       Constants.unhealthySensitive Constants.unhealthy
       Constants.veryUnhealthy Constants.hazardous];
  apply andb_true_intro; split; apply Z.leb_le; lia.
Qed.

(** The AQI the card shows is never NaN and never fractional, whatever
    the forecast holds; when it lies between 0 and 500 the band shown with
    it is the band that holds it. *)
Theorem displayed_aqi_is_classified (forecast : Forecast) :
  displayed_aqi forecast = PosInf \/ displayed_aqi forecast = NegInf \/
  exists z, displayed_aqi forecast = of_Z z /\
            (0 <= z <= 500 ->
             Constants.in_band (displayed_aqi forecast)
               (Constants.getAQILevel (displayed_aqi forecast)) = true).
Proof.
  unfold displayed_aqi.
  set (d := currentData forecast).
  pose proof (or_else_not_NaN (or_option (aqi_predicted d) (aqi d)) (of_Z 0)
                ltac:(discriminate)) as Hnan.
  destruct (or_else (or_option (aqi_predicted d) (aqi d)) (of_Z 0))
    as [| | |q]; [contradiction|now left|now right; left|].
  right; right. exists (Qfloor (q + (1 # 2))). split; [reflexivity|].
  apply getAQILevel_of_Z_in_band.
Qed.

(** A meter whose two readings are each missing, zero or NaN shows "0.0":
    the card never hands a missing value to formatNumber, so the
    placeholder "--" is not shown here. *)
Theorem meter_text_without_reading (d : ForecastPoint)
    (key : PollutantType) :
  (forall x, fst (readings d key) = Some x -> truthy x = false) ->
  (forall x, snd (readings d key) = Some x -> truthy x = false) ->
  meter_text Number_toString d key = Normal "0.0".
Proof.
  intros Hfirst Hsecond. unfold meter_text, meter_value.
  assert (Hvalue : or_else (or_option (fst (readings d key))
                              (snd (readings d key))) (of_Z 0) = of_Z 0).
  { destruct (fst (readings d key)) as [x|]; cbn.
    - rewrite (Hfirst x eq_refl).
      destruct (snd (readings d key)) as [y|]; cbn; [|reflexivity].
      now rewrite (Hsecond y eq_refl).
    - destruct (snd (readings d key)) as [y|]; cbn; [|reflexivity].
      now rewrite (Hsecond y eq_refl). }
  rewrite Hvalue. reflexivity.
Qed.

End AQICardFacts.

Lemma meter_text_without_reading_witness :
  AQICard.meter_text (fun _ => "")
    (AQICard.mkPoint (Some (JS.of_Z 42)) None (Some JS.NaN) None
                     None (Some (JS.of_Z 0)) None None)
    AQICard.key_no2
  = JS.Normal "0.0".
Proof.
  apply (meter_text_without_reading (fun _ => "")
           (AQICard.mkPoint (Some (JS.of_Z 42)) None (Some JS.NaN) None
                            None (Some (JS.of_Z 0)) None None)
           AQICard.key_no2).
  - intros x [= <-]. reflexivity.
  - intros x [=].
Defined.
(** ** Risk levels and recommendations *)

Section RiskLevels.
Import JS JSMath HealthRecommendations.

Lemma to_double_Qeq (q1 q2 : Q) : (q1 == q2)%Q -> to_double q1 = to_double q2.
Proof. intros H. unfold to_double. now rewrite (Qred_complete _ _ H). Qed.

(** The classifier does not look at how a rational is written. *)
Lemma getAQILevel_Qeq (q1 q2 : Q) :
  (q1 == q2)%Q ->
  Constants.getAQILevel (Fin q1) = Constants.getAQILevel (Fin q2).
Proof.
  intros H.
  assert (Hband : forall l, Constants.in_band (Fin q1) l
                            = Constants.in_band (Fin q2) l).
  { intros l. unfold Constants.in_band. cbn.
    destruct (Qle_bool (inject_Z (Constants.min l)) q1) eqn:H1,
             (Qle_bool (inject_Z (Constants.min l)) q2) eqn:H2,
             (Qle_bool q1 (inject_Z (Constants.max l))) eqn:H3,
             (Qle_bool q2 (inject_Z (Constants.max l))) eqn:H4;
      try reflexivity; exfalso;
      repeat match goal with
      | Hb : Qle_bool _ _ = true |- _ => apply Qle_bool_iff in Hb
      | Hb : Qle_bool _ _ = false |- _ => apply Qle_bool_false in Hb
      end; lra. }
  unfold Constants.getAQILevel, Constants.AQI_LEVELS, Constants.scan.
  now rewrite !Hband.
Qed.

Lemma Math_min_500 (q : Q) :
  Constants.getAQILevel (Math_min (of_Z 500) (Fin q))
  = if Qle_bool 500 q then Constants.hazardous
    else Constants.getAQILevel (Fin q).
Proof.
  unfold Math_min, of_Z. cbn [le].
  change (inject_Z 500) with 500%Q.
  now destruct (Qle_bool 500 q).
Qed.

(** For a user without a risk factor (no profile, or a profile with none
    of the four factors) the risk level of a reading up to 500 is the band
    of the reading, and that of a reading above 500 is "Hazardous", where
    the classifier alone says "Good". *)
Theorem getUserRiskLevel_without_risk_factor (q : Q)
    (profile : option UserProfile) :
  is_double q ->
  (forall p, profile = Some p ->
     age_at_risk p = false /\ hasRespiratoryConditions p = false /\
     isPregnant p = false /\ isAthlete p = false) ->
  ((q <= 500)%Q ->
   getUserRiskLevel (Fin q) profile = Constants.getAQILevel (Fin q)) /\
  ((500 < q)%Q ->
   getUserRiskLevel (Fin q) profile = Constants.hazardous /\
   Constants.getAQILevel (Fin q) = Constants.good).
Proof.
  intros Hdouble Hprofile.
  assert (Hm : riskMultiplier profile = of_Z 1).
  { destruct profile as [p|]; [|reflexivity].
    destruct (Hprofile p eq_refl) as (Hage & Hresp & Hpreg & Hath).
    unfold riskMultiplier. now rewrite Hage, Hresp, Hpreg, Hath. }
  assert (Hmul : mul (Fin q) (of_Z 1) = Fin (Qred q)).
  { cbn [mul of_Z]. rewrite (to_double_Qeq (q * inject_Z 1) q).
    - exact Hdouble.
    - unfold inject_Z. ring. }
  assert (Hlevel : getUserRiskLevel (Fin q) profile
                   = if Qle_bool 500 q then Constants.hazardous
                     else Constants.getAQILevel (Fin q)).
  { unfold getUserRiskLevel. rewrite Hm, Hmul, Math_min_500.
    pose proof (Qred_correct q) as Hred.
    rewrite (getAQILevel_Qeq _ _ Hred).
    destruct (Qle_bool 500 (Qred q)) eqn:H1, (Qle_bool 500 q) eqn:H2;
      try reflexivity; exfalso;
      repeat match goal with
      | Hb : Qle_bool _ _ = true |- _ => apply Qle_bool_iff in Hb
      | Hb : Qle_bool _ _ = false |- _ => apply Qle_bool_false in Hb
      end; lra. }
  rewrite Hlevel. split; intros Hq.
  - destruct (Qle_bool 500 q) eqn:Hle; [|reflexivity].
    apply Qle_bool_iff in Hle.
    rewrite (getAQILevel_Qeq q 500); [reflexivity|lra].
  - split.
    + destruct (Qle_bool 500 q) eqn:Hle; [reflexivity|].
      apply Qle_bool_false in Hle. lra.
    + now apply getAQILevel_above_500.
Qed.

(** Whatever the profile, an adjusted reading of 500 or more (infinite
    included) gives the "Hazardous" band: the cap at 500 keeps the
    classifier's fall-back for readings above 500 out of reach.  An
    adjusted reading that is NaN gives "Good". *)
Theorem getUserRiskLevel_capped (aqi : number)
    (profile : option UserProfile) :
  (ge (mul aqi (riskMultiplier profile)) (of_Z 500) = true ->
   getUserRiskLevel aqi profile = Constants.hazardous) /\
  (mul aqi (riskMultiplier profile) = NaN ->
   getUserRiskLevel aqi profile = Constants.good).
Proof.
  unfold getUserRiskLevel. split.
  - destruct (mul aqi (riskMultiplier profile)) as [| | |q];
      try discriminate; [reflexivity|].
    intros Hge. apply ge_Fin in Hge. rewrite Math_min_500.
    destruct (Qle_bool 500 q) eqn:Hle; [reflexivity|].
    apply Qle_bool_false in Hle. unfold inject_Z in Hge. lra.
  - now intros ->.
Qed.

(** A user over 65 and a reading of 67: the adjusted reading is 100.5,
    which lies between two bands, so the risk level shown is "Good" while
    the reading itself is "Moderate". *)
Example getUserRiskLevel_can_lower_the_band :
  let profile := Some (mkProfile (Some (of_Z 70)) false false false) in
  mul (of_Z 67) (riskMultiplier profile) = Fin (201 # 2) /\
  getUserRiskLevel (of_Z 67) profile = Constants.good /\
  Constants.getAQILevel (of_Z 67) = Constants.moderate.
Proof. vm_compute. repeat split. Qed.

End RiskLevels.

Lemma getUserRiskLevel_without_risk_factor_witness :
  HealthRecommendations.getUserRiskLevel (JS.of_Z 600) None
  = Constants.hazardous /\
  Constants.getAQILevel (JS.of_Z 600) = Constants.good.
Proof.
  apply (getUserRiskLevel_without_risk_factor 600 None).
  - reflexivity.
  - discriminate.
  - reflexivity.
Defined.

Lemma getUserRiskLevel_capped_witness :
  let profile :=
    Some (HealthRecommendations.mkProfile (Some (JS.of_Z 70)) true true true)
  in
  HealthRecommendations.getUserRiskLevel (JS.of_Z 180) profile
  = Constants.hazardous.
Proof.
  intros profile.
  apply (proj1 (getUserRiskLevel_capped (JS.of_Z 180) profile)).
  vm_compute. reflexivity.
Defined.
Section Recommendations.
Import JS JSMath HealthRecommendations.

Lemma gt_of_Z (a b : Z) : gt (of_Z a) (of_Z b) = (b <? a).
Proof.
  unfold gt. rewrite ge_of_Z, le_of_Z.
  destruct (Z.leb_spec b a), (Z.leb_spec a b), (Z.ltb_spec b a);
    cbn; try reflexivity; lia.
Qed.

(** Every list holds recommendations of its own category only; general,
    outdoor and indoor hold one each; health holds one, plus one for a
    respiratory condition and one for a pregnancy, and those two are of
    high priority whatever the reading. *)
Theorem getRecommendationsByCategory_lists (aqi : number)
    (userProfile : option UserProfile) :
  let r := getRecommendationsByCategory aqi userProfile in
  let flag (f : UserProfile -> bool) :=
    match userProfile with Some p => f p | None => false end in
  Forall (fun x => category x = general) (in_general r) /\
  Forall (fun x => category x = outdoor) (in_outdoor r) /\
  Forall (fun x => category x = health) (in_health r) /\
  Forall (fun x => category x = indoor) (in_indoor r) /\
  length (in_general r) = 1%nat /\
  length (in_outdoor r) = 1%nat /\
  length (in_indoor r) = 1%nat /\
  length (in_health r)
  = (1 + (if flag hasRespiratoryConditions then 1 else 0)
       + (if flag isPregnant then 1 else 0))%nat /\
  Forall (fun x => priority x = high) (tl (in_health r)).
Proof.
  destruct userProfile as [[a [|] [|] ath]|]; cbn;
    repeat split; repeat constructor.
Qed.

(** The band of an integer reading from 0 to 500, by range. *)
Lemma getAQILevel_of_Z_cases (z : Z) :
  0 <= z <= 500 ->
  (z <= 50 /\ Constants.getAQILevel (of_Z z) = Constants.good) \/
  (51 <= z <= 100 /\ Constants.getAQILevel (of_Z z) = Constants.moderate) \/
  (101 <= z <= 150 /\
   Constants.getAQILevel (of_Z z) = Constants.unhealthySensitive) \/
  (151 <= z <= 200 /\ Constants.getAQILevel (of_Z z) = Constants.unhealthy) \/
  (201 <= z <= 300 /\
   Constants.getAQILevel (of_Z z) = Constants.veryUnhealthy) \/
  (301 <= z /\ Constants.getAQILevel (of_Z z) = Constants.hazardous).
Proof.
  intros Hz. rewrite getAQILevel_of_Z.
  repeat match goal with
  | |- context [?a <=? ?b] =>
      destruct (Z.leb_spec a b); cbn [andb]; try lia
  end; intuition lia.
Qed.

(** For an integer reading from 0 to 500 the priorities follow the band:
    general, health and indoor are low up to "Moderate", medium for
    "Unhealthy for Sensitive Groups" and high from "Unhealthy" on;
    outdoor is low up to "Unhealthy for Sensitive Groups", medium for
    "Unhealthy" and high from "Very Unhealthy" on. *)
Theorem getRecommendationsByCategory_priorities (z : Z)
    (userProfile : option UserProfile) :
  0 <= z <= 500 ->
  let r := getRecommendationsByCategory (of_Z z) userProfile in
  let band := Constants.getAQILevel (of_Z z) in
  let by_band (medium_from high_from : Z) : Priority :=
    if high_from <=? Constants.min band then high
    else if medium_from <=? Constants.min band then medium else low in
  map priority (in_general r) = [by_band 101 151] /\
  map priority (in_indoor r) = [by_band 101 151] /\
  map priority (firstn 1 (in_health r)) = [by_band 101 151] /\
  map priority (in_outdoor r) = [by_band 151 201].
Proof.
  intros Hz r band by_band. subst r band by_band.
  assert (Hhealth :
            map priority
              (firstn 1
                 (in_health (getRecommendationsByCategory (of_Z z)
                               userProfile)))
            = [priority_150_100 (of_Z z)]).
  { destruct userProfile as [[a [|] [|] ath]|]; reflexivity. }
  rewrite Hhealth.
  cbn [getRecommendationsByCategory in_general in_indoor in_outdoor
       map priority].
  unfold priority_150_100. rewrite !gt_of_Z.
  destruct (getAQILevel_of_Z_cases z Hz)
    as [[H ->]|[[H ->]|[[H ->]|[[H ->]|[[H ->]|[H ->]]]]]];
    cbn [Constants.min Constants.good Constants.moderate
         Constants.unhealthySensitive Constants.unhealthy
         Constants.veryUnhealthy Constants.hazardous];
    repeat match goal with
    | |- context [?a <? ?b] => destruct (Z.ltb_spec a b); try lia
    end; cbn; repeat split.
Qed.

End Recommendations.

Lemma getRecommendationsByCategory_priorities_witness :
  let r :=
    HealthRecommendations.getRecommendationsByCategory (JS.of_Z 175) None in
  map HealthRecommendations.priority (HealthRecommendations.in_general r)
  = [HealthRecommendations.high] /\
  map HealthRecommendations.priority (HealthRecommendations.in_outdoor r)
  = [HealthRecommendations.medium].
Proof.
  intros r.
  pose proof (getRecommendationsByCategory_priorities 175 None
                ltac:(lia)) as H.
  cbv zeta in H. destruct H as (Hgeneral & _ & _ & Houtdoor).
  exact (conj Hgeneral Houtdoor).
Defined.
(** ** The prototype: advice, alerts and the AQI panel *)

Section PrototypeAdvice.
Import JS JSMath Prototype PrototypeUI.

(** The prototype's classifier on a rational, by range. *)
Lemma Prototype_getAQILevel_cases (q : Q) :
  ((0 <= q <= 50)%Q /\ getAQILevel (Fin q) = with_key good "good") \/
  ((51 <= q <= 100)%Q /\ getAQILevel (Fin q) = with_key moderate "moderate") \/
  ((101 <= q <= 150)%Q /\
   getAQILevel (Fin q) = with_key unhealthySensitive "unhealthySensitive") \/
  ((151 <= q <= 200)%Q /\
   getAQILevel (Fin q) = with_key unhealthy "unhealthy") \/
  ((201 <= q <= 300)%Q /\
   getAQILevel (Fin q) = with_key veryUnhealthy "veryUnhealthy") \/
  ((301 <= q <= 500)%Q /\
   getAQILevel (Fin q) = with_key hazardous "hazardous") \/
  ((q < 0 \/ 50 < q < 51 \/ 100 < q < 101 \/ 150 < q < 151 \/
    200 < q < 201 \/ 300 < q < 301 \/ 500 < q)%Q /\
   getAQILevel (Fin q) = hazardous).
Proof.
  unfold getAQILevel, AQI_LEVELS, scan, in_band.
  cbn [min max good moderate unhealthySensitive unhealthy veryUnhealthy
       hazardous].
  cbv [JS.ge JS.le JS.of_Z]; cbn [andb].
  split_bounds;
    repeat match goal with
    | H : context [inject_Z] |- _ => unfold inject_Z in H
    end;
    first [ left; split; [lra|reflexivity]
          | right; left; split; [lra|reflexivity]
          | do 2 right; left; split; [lra|reflexivity]
          | do 3 right; left; split; [lra|reflexivity]
          | do 4 right; left; split; [lra|reflexivity]
          | do 5 right; left; split; [lra|reflexivity]
          | do 6 right; split; [lra|reflexivity] ].
Qed.

(** Decides the tests of getHealthRecommendations on a rational. *)
Ltac advice_cases :=
  unfold getHealthRecommendations; cbv [JS.le JS.of_Z];
  split_bounds; try reflexivity.

(** For a reading that lies in a band, the advice is the advice of that
    band: it is the same for every reading of the band. *)
Theorem getHealthRecommendations_by_band (q : Q) :
  in_band (Fin q) (getAQILevel (Fin q)) = true ->
  getHealthRecommendations (Fin q)
  = getHealthRecommendations (of_Z (min (getAQILevel (Fin q)))).
Proof.
  destruct (Prototype_getAQILevel_cases q)
    as [[H ->]|[[H ->]|[[H ->]|[[H ->]|[[H ->]|[[H ->]|[H ->]]]]]]];
    intros Hband;
    cbn [min with_key good moderate unhealthySensitive unhealthy
         veryUnhealthy hazardous];
    try (advice_cases; fail).
  exfalso. unfold in_band in Hband.
  cbn [min max hazardous] in Hband.
  apply andb_prop in Hband as [Hlo Hhi].
  apply ge_Fin in Hlo. apply le_Fin in Hhi.
  unfold inject_Z in *. lra.
Qed.

(** The six bands have six different advices. *)
Lemma advice_per_band_distinct :
  NoDup (map (fun entry => getHealthRecommendations (of_Z (min (snd entry))))
             AQI_LEVELS).
Proof.
  apply NoDup_ListNoDup. cbn.
  repeat (apply List.NoDup_cons; [cbn; intuition discriminate|]).
  apply List.NoDup_nil.
Qed.

(** Outside the bands the advice and the classifier part ways: a negative
    reading gets the advice of "Good" but the band "Hazardous"; a reading
    between two bands gets the advice of the upper band but the band
    "Hazardous"; above 500, and for NaN, both give the last tier. *)
Theorem getHealthRecommendations_outside_bands (q : Q) :
  ((q < 0)%Q ->
   getHealthRecommendations (Fin q) = getHealthRecommendations (of_Z 0) /\
   getAQILevel (Fin q) = hazardous) /\
  ((50 < q < 51)%Q ->
   getHealthRecommendations (Fin q) = getHealthRecommendations (of_Z 51) /\
   getAQILevel (Fin q) = hazardous) /\
  ((500 < q)%Q ->
   getHealthRecommendations (Fin q) = getHealthRecommendations (of_Z 301) /\
   getAQILevel (Fin q) = hazardous) /\
  getHealthRecommendations NaN = getHealthRecommendations (of_Z 301) /\
  getAQILevel NaN = hazardous.
Proof.
  assert (Hout : (q < 0 \/ 50 < q < 51 \/ 500 < q)%Q ->
                 getAQILevel (Fin q) = hazardous).
  { intros Hq.
    destruct (Prototype_getAQILevel_cases q)
      as [[H ->]|[[H ->]|[[H ->]|[[H ->]|[[H ->]|[[H ->]|[H ->]]]]]]];
      try reflexivity; exfalso; lra. }
  split; [|split; [|split; [|split; reflexivity]]]; intros Hq;
    (split; [advice_cases|apply Hout; lra]).
Qed.

End PrototypeAdvice.

Lemma getHealthRecommendations_by_band_witness :
  PrototypeUI.getHealthRecommendations (JS.Fin (1755 # 10))
  = PrototypeUI.getHealthRecommendations (JS.of_Z 151).
Proof.
  apply (getHealthRecommendations_by_band (1755 # 10)). reflexivity.
Defined.
Section PrototypeAlerts.
Import JS JSMath PrototypeUI.

(** A reading above a threshold is above every lower threshold. *)
Lemma gt_of_Z_weaken (aqi : number) (a b : Z) :
  b <= a -> gt aqi (of_Z a) = true -> gt aqi (of_Z b) = true.
Proof.
  intros Hab. destruct aqi as [| | |q]; try discriminate; try reflexivity.
  unfold gt. cbn [ge le of_Z].
  destruct (Qle_bool (inject_Z a) q) eqn:H1; [|discriminate].
  destruct (Qle_bool q (inject_Z a)) eqn:H2; [discriminate|].
  intros _. apply Qle_bool_iff in H1. apply Qle_bool_false in H2.
  assert (Hinj : (inject_Z b <= inject_Z a)%Q) by now rewrite <- Zle_Qle.
  apply andb_true_intro. split.
  - apply Qle_bool_iff. lra.
  - apply negb_true_iff, Qle_bool_false. lra.
Qed.

(** There is no alert up to 100 (and for NaN), one from above 100, and two
    from above 200; some alert asks for a notification exactly when the
    reading is above 150, and only alerts of type "danger" do. *)
Theorem generateAlerts_by_reading (aqi : number) (location : string) :
  let alerts := generateAlerts aqi location in
  length alerts
  = ((if gt aqi (of_Z 100) then 1 else 0)
     + (if gt aqi (of_Z 200) then 1 else 0))%nat /\
  existsb notify alerts = gt aqi (of_Z 150) /\
  Forall (fun a => notify a = true -> type a = "danger") alerts.
Proof.
  unfold generateAlerts.
  destruct (gt aqi (of_Z 200)) eqn:H200.
  - rewrite (gt_of_Z_weaken aqi 200 150 ltac:(lia) H200).
    rewrite (gt_of_Z_weaken aqi 200 100 ltac:(lia) H200).
    cbn. repeat split. repeat constructor.
  - destruct (gt aqi (of_Z 150)) eqn:H150.
    + rewrite (gt_of_Z_weaken aqi 150 100 ltac:(lia) H150).
      cbn. repeat split. repeat constructor.
    + destruct (gt aqi (of_Z 100)); cbn; repeat split;
        repeat constructor; discriminate.
Qed.

Lemma replace_first_underscore_app (before after : string) :
  ~ In "_"%char (list_ascii_of_string before) ->
  replace_first_underscore (before ++ "_" ++ after)
  = before ++ " " ++ after.
Proof.
  induction before as [|c before IH]; intros Hnone; [reflexivity|].
  rewrite !append_cons. cbn [replace_first_underscore].
  cbn [list_ascii_of_string In] in Hnone.
  destruct (Ascii.eqb_spec c "_") as [->|_]; [tauto|].
  f_equal. apply IH. tauto.
Qed.

(** In the text of an alert only the first underscore of the location is
    turned into a space: what follows it is printed as it is. *)
Theorem generateAlerts_location_text (aqi : number)
    (before after : string) :
  ~ In "_"%char (list_ascii_of_string before) ->
  gt aqi (of_Z 150) = true ->
  map message (firstn 1 (generateAlerts aqi (before ++ "_" ++ after)))
  = [ "Air quality in " ++ (before ++ " " ++ after)
        ++ " is unhealthy. Avoid outdoor activities." ].
Proof.
  intros Hnone Hgt. unfold generateAlerts. rewrite Hgt.
  cbn [app firstn map message].
  now rewrite (replace_first_underscore_app before after Hnone).
Qed.

End PrototypeAlerts.

Lemma generateAlerts_location_text_witness :
  map PrototypeUI.message
    (firstn 1 (PrototypeUI.generateAlerts (JS.of_Z 175)
                 ("Salt" ++ "_" ++ "Lake_City")))
  = [ "Air quality in " ++ ("Salt" ++ " " ++ "Lake_City")
        ++ " is unhealthy. Avoid outdoor activities." ].
Proof.
  apply (generateAlerts_location_text (JS.of_Z 175) "Salt" "Lake_City");
    [cbn; intuition discriminate|reflexivity].
Defined.
Section PrototypePanel.
Import JS JSMath Prototype PrototypeUI.
Variable Number_toString : Q -> string.

(** The prototype's classifier on an integer, by range. *)
Lemma Prototype_getAQILevel_of_Z_cases (z : Z) :
  (0 <= z <= 50 /\ getAQILevel (of_Z z) = with_key good "good") \/
  (51 <= z <= 100 /\ getAQILevel (of_Z z) = with_key moderate "moderate") \/
  (101 <= z <= 150 /\
   getAQILevel (of_Z z) = with_key unhealthySensitive "unhealthySensitive") \/
  (151 <= z <= 200 /\
   getAQILevel (of_Z z) = with_key unhealthy "unhealthy") \/
  (201 <= z <= 300 /\
   getAQILevel (of_Z z) = with_key veryUnhealthy "veryUnhealthy") \/
  (301 <= z <= 500 /\
   getAQILevel (of_Z z) = with_key hazardous "hazardous") \/
  ((z < 0 \/ 500 < z) /\ getAQILevel (of_Z z) = hazardous).
Proof.
  assert (Hle : forall a b : Z, (inject_Z a <= inject_Z b)%Q -> a <= b)
    by (intros a b; now rewrite <- Zle_Qle).
  assert (Hlt : forall a b : Z, (inject_Z a < inject_Z b)%Q -> a < b)
    by (intros a b; now rewrite <- Zlt_Qlt).
  unfold of_Z.
  destruct (Prototype_getAQILevel_cases (inject_Z z))
    as [[[H1 H2] ->]|[[[H1 H2] ->]|[[[H1 H2] ->]|[[[H1 H2] ->]|
        [[[H1 H2] ->]|[[[H1 H2] ->]|[H ->]]]]]]].
  - left. split; [|reflexivity].
    split; [apply (Hle 0 z H1)|apply (Hle z 50 H2)].
  - right; left. split; [|reflexivity].
    split; [apply (Hle 51 z H1)|apply (Hle z 100 H2)].
  - do 2 right; left. split; [|reflexivity].
    split; [apply (Hle 101 z H1)|apply (Hle z 150 H2)].
  - do 3 right; left. split; [|reflexivity].
    split; [apply (Hle 151 z H1)|apply (Hle z 200 H2)].
  - do 4 right; left. split; [|reflexivity].
    split; [apply (Hle 201 z H1)|apply (Hle z 300 H2)].
  - do 5 right; left. split; [|reflexivity].
    split; [apply (Hle 301 z H1)|apply (Hle z 500 H2)].
  - do 6 right. split; [|reflexivity].
    destruct H as [H|[[H1 H2]|[[H1 H2]|[[H1 H2]|[[H1 H2]|[[H1 H2]|H]]]]]].
    + left. apply (Hlt z 0 H).
    + pose proof (Hlt 50 z H1). pose proof (Hlt z 51 H2). lia.
    + pose proof (Hlt 100 z H1). pose proof (Hlt z 101 H2). lia.
    + pose proof (Hlt 150 z H1). pose proof (Hlt z 151 H2). lia.
    + pose proof (Hlt 200 z H1). pose proof (Hlt z 201 H2). lia.
    + pose proof (Hlt 300 z H1). pose proof (Hlt z 301 H2). lia.
    + right. apply (Hlt 500 z H).
Qed.

(** Proves that a computed element is one of those listed. *)
Ltac listed :=
  vm_compute; repeat (first [left; reflexivity | right]).

(** Proves that a named band is in the table, holds the number, and has
    the label and description shown. *)
Ltac in_table :=
  split; [cbn [AQI_LEVELS In]; repeat (first [left; reflexivity | right])|];
  split; [cbn [min max good moderate unhealthySensitive unhealthy
               veryUnhealthy hazardous]; lia|];
  split; reflexivity.

(** What updateCurrentAQI puts on the panel for a forecast, whatever the
    forecast holds: the number shown is never NaN and never fractional;
    between 0 and 500 the label and the description are those of the band
    that holds the number, and below 0 or above 500 the label is
    "Hazardous"; label and card class are always one of six known pairs;
    a prediction that is missing, zero or NaN is shown as 50, "Good". *)
Theorem updateCurrentAQI_panel (f : Forecast) (location : string)
    (panel : Panel) :
  let shown := updateCurrentAQI Number_toString (Some f) location panel in
  locationName shown = location /\
  (aqiNumber shown = PosInf \/ aqiNumber shown = NegInf \/
   exists z, aqiNumber shown = of_Z z /\
     (0 <= z <= 500 ->
      exists key band,
        In (key, band) AQI_LEVELS /\ min band <= z <= max band /\
        aqiLevel shown = level band /\
        aqiDescription shown = description band) /\
     (z < 0 \/ 500 < z -> aqiLevel shown = "Hazardous")) /\
  In (aqiLevel shown, className shown)
     [ ("Good", "card aqi-card aqi-good");
       ("Moderate", "card aqi-card aqi-moderate");
       ("Unhealthy for Sensitive Groups",
        "card aqi-card aqi-unhealthy-for-sensitive-groups");
       ("Unhealthy", "card aqi-card aqi-unhealthy");
       ("Very Unhealthy", "card aqi-card aqi-very-unhealthy");
       ("Hazardous", "card aqi-card aqi-hazardous") ] /\
  ((forall x, aqi_predicted f = Some x -> truthy x = false) ->
   aqiNumber shown = of_Z 50 /\ aqiLevel shown = "Good").
Proof.
  cbn [updateCurrentAQI locationName aqiNumber aqiLevel aqiDescription
       className].
  split; [reflexivity|].
  pose proof (or_else_not_NaN (aqi_predicted f) (of_Z 50)
                ltac:(discriminate)) as Hnan.
  split; [|split].
  - destruct (or_else (aqi_predicted f) (of_Z 50)) as [| | |q];
      [contradiction|now left|now right; left|].
    right; right. cbn [Math_round].
    set (z := Qfloor (q + (1 # 2))). exists z.
    change (Fin (inject_Z z)) with (of_Z z).
    split; [reflexivity|].
    destruct (Prototype_getAQILevel_of_Z_cases z)
      as [[H ->]|[[H ->]|[[H ->]|[[H ->]|[[H ->]|[[H ->]|[H ->]]]]]]];
      (split; [intros Hz|intros Hz; try reflexivity; exfalso; lia]).
    + exists "good", good. in_table.
    + exists "moderate", moderate. in_table.
    + exists "unhealthySensitive", unhealthySensitive. in_table.
    + exists "unhealthy", unhealthy. in_table.
    + exists "veryUnhealthy", veryUnhealthy. in_table.
    + exists "hazardous", hazardous. in_table.
    + exfalso. lia.
  - destruct (or_else (aqi_predicted f) (of_Z 50)) as [| | |q];
      [contradiction|listed|listed|].
    cbn [Math_round]. set (z := Qfloor (q + (1 # 2))).
    change (Fin (inject_Z z)) with (of_Z z).
    destruct (Prototype_getAQILevel_of_Z_cases z)
      as [[H ->]|[[H ->]|[[H ->]|[[H ->]|[[H ->]|[[H ->]|[H ->]]]]]]];
      listed.
  - intros Hfalsy.
    assert (Hfifty : or_else (aqi_predicted f) (of_Z 50) = of_Z 50).
    { unfold or_else. destruct (aqi_predicted f) as [x|]; [|reflexivity].
      now rewrite (Hfalsy x eq_refl). }
    rewrite Hfifty. split; reflexivity.
Qed.

End PrototypePanel.

Lemma updateCurrentAQI_panel_witness :
  let f := PrototypeUI.mkForecast "2025-10-05T12:00:00Z" (Some JS.NaN)
             None None None in
  let panel :=
    PrototypeUI.mkPanel "" (JS.of_Z 0) "" "" "" (JS.Normal "")
      (JS.Normal "") (JS.Normal "") in
  let shown := PrototypeUI.updateCurrentAQI (fun _ => "") (Some f)
                 "Chicago" panel in
  PrototypeUI.aqiNumber shown = JS.of_Z 50 /\
  PrototypeUI.aqiLevel shown = "Good".
Proof.
  intros f panel shown.
  pose proof (updateCurrentAQI_panel (fun _ => "") f "Chicago" panel) as H.
  cbv zeta in H. destruct H as (_ & _ & _ & Hfalsy).
  apply Hfalsy. intros x [= <-]. reflexivity.
Defined.
(** ** The prototype's loadLocationData *)

Section LoadLocationData.
Import JS JSMath Async PrototypeUI PrototypeLoad.
Variable Number_toString : Q -> string.

Local Abbreviation step := (PrototypeLoad.step Number_toString).
Local Abbreviation run := (PrototypeLoad.run Number_toString).
Local Abbreviation settle := (PrototypeLoad.settle Number_toString).

Lemma step_one_at_a_time (st : State) (ev : Event) :
  one_at_a_time st -> one_at_a_time (step st ev).
Proof.
  unfold one_at_a_time. intros Hst.
  destruct ev as [|l|o now]; cbn [PrototypeLoad.step].
  - unfold loadLocationData. destruct (isLoading st) eqn:Hl;
      [now rewrite Hl|].
    cbn. rewrite length_app. cbn. lia.
  - unfold loadLocationData. cbn [isLoading].
    destruct (isLoading st) eqn:Hl; cbn; [now rewrite ?Hl|].
    rewrite length_app. cbn. lia.
  - destruct (isLoading st) eqn:Hl; [|now rewrite Hl].
    unfold PrototypeLoad.settle. cbn [fetched finished isLoading].
    assert (Hsame : forall st', fetched st' = fetched st ->
                                finished st' = finished st ->
                                length (fetched st') = (S (finished st') + 0)%nat)
      by (intros st' -> ->; lia).
    destruct o as [d|e].
    + apply Hsame; unfold after_success;
        destruct (forecasts d) as [[|first rest]|]; reflexivity.
    + apply Hsame; unfold after_failure;
        destruct (String.eqb (err_name e) "AbortError"); reflexivity.
Qed.

(** However calls, selections and settled requests follow one another
    after the page has loaded, loadLocationData has at most one request
    outstanding, and has one exactly while [isLoading] is set. *)
Theorem loadLocationData_one_at_a_time (st0 : State) (evs : list Event) :
  isLoading st0 = false -> fetched st0 = [] -> finished st0 = 0%nat ->
  let st := run st0 evs in
  length (fetched st)
  = (finished st + (if isLoading st then 1 else 0))%nat.
Proof.
  intros Hl Hf Hn.
  assert (H0 : one_at_a_time st0).
  { unfold one_at_a_time. now rewrite Hl, Hf, Hn. }
  clear Hl Hf Hn. revert st0 H0.
  induction evs as [|ev evs IH]; intros st0 H0; [exact H0|].
  apply (IH (step st0 ev)). now apply step_one_at_a_time.
Qed.

(** A location selected while a load is outstanding starts no request:
    when the outstanding load delivers, the panel shows the location the
    response names, not the one selected, and nothing fetches the new
    one. *)
Theorem loadLocationData_drops_selection (st : State) (selected : string)
    (d : ForecastData) (first : Forecast) (rest : list Forecast)
    (now : string) :
  isLoading st = true ->
  forecasts d = Some (first :: rest) ->
  let st' := run st [Select selected; Settled (Resolved d) now] in
  currentLocation st' = selected /\
  locationName (panel st') = location d /\
  fetched st' = fetched st /\
  isLoading st' = false.
Proof.
  intros Hl Hd. cbn [PrototypeLoad.run fold_left PrototypeLoad.step].
  unfold loadLocationData. cbn [isLoading]. rewrite Hl. cbn [isLoading].
  unfold PrototypeLoad.settle, after_success. cbn [forecasts].
  rewrite Hd. cbn. repeat split.
Qed.

(** A request the backend has not answered after 10 seconds is aborted,
    and the panel then shows the stand-in reading 65, "Moderate", under
    the current location, without an error message. *)
Theorem loadLocationData_timeout_shows_fallback (st : State)
    (net : network ForecastData) (now : string) :
  isLoading st = true ->
  (forall t, answer_time net = Some t -> REQUEST_TIMEOUT <= t) ->
  load_response net = SettlesAt REQUEST_TIMEOUT (Rejected Api.AbortError) /\
  let st' := step st (Settled (Rejected Api.AbortError) now) in
  aqiNumber (panel st') = of_Z 65 /\
  aqiLevel (panel st') = "Moderate" /\
  locationName (panel st') = currentLocation st /\
  errorMessage st' = errorMessage st /\
  isLoading st' = false.
Proof.
  intros Hl Hlate. split.
  - unfold load_response. now rewrite (fetch_late net _ _ Hlate).
  - cbn [PrototypeLoad.step]. rewrite Hl. repeat split.
Qed.

(** Any other failure (a status outside 2xx, a network error, a body that
    is not JSON) leaves the panel as it was and puts "Failed to load
    location data: " and the error's message in the error toast. *)
Theorem loadLocationData_failure_shows_error (st : State) (e : JsError)
    (now : string) :
  isLoading st = true ->
  err_name e <> "AbortError" ->
  let st' := step st (Settled (Rejected e) now) in
  panel st' = panel st /\
  errorMessage st' = Some ("Failed to load location data: " ++ err_message e) /\
  helpers st' = helpers st /\
  isLoading st' = false.
Proof.
  intros Hl Hname. cbn [PrototypeLoad.step]. rewrite Hl.
  unfold PrototypeLoad.settle, after_failure.
  destruct (String.eqb_spec (err_name e) "AbortError"); [contradiction|].
  repeat split.
Qed.

(** A response whose headers arrive in time and whose body never ends
    leaves the request unsettled: the timer is already cleared.  As long
    as nothing settles, no call and no selection starts another
    request. *)
Theorem loadLocationData_blocked_while_loading (st : State)
    (evs : list Event) :
  isLoading st = true ->
  Forall (fun ev => match ev with Settled _ _ => False | _ => True end) evs ->
  (forall t r, t < REQUEST_TIMEOUT -> ok r = true ->
     resp_body r = BodyStalls ->
     load_response (Responds t r) = Pending) /\
  fetched (run st evs) = fetched st /\
  isLoading (run st evs) = true.
Proof.
  intros Hl Hevs. split.
  - intros t r Ht Hok Hbody. unfold load_response. cbn [fetch].
    destruct (Z.ltb_spec t REQUEST_TIMEOUT); [|lia].
    now rewrite Hok, Hbody.
  - revert st Hl. induction Hevs as [|ev evs Hev _ IH]; intros st Hl;
      [now split|].
    change (run st (ev :: evs)) with (run (step st ev) evs).
    destruct ev as [|l|o now]; [| |contradiction];
      cbn [PrototypeLoad.step]; unfold loadLocationData; cbn [isLoading];
      rewrite Hl.
    + now apply IH.
    + exact (IH (mkState true l (panel st) (errorMessage st) (helpers st)
                   (fetched st) (finished st)) eq_refl).
Qed.

End LoadLocationData.

Section LoadLocationDataExamples.
Import JS Async PrototypeUI PrototypeLoad.

(** The panel as the page has it before any data. *)
Let blank : Panel :=
  mkPanel "" (of_Z 0) "" "" "" (Normal "") (Normal "") (Normal "").

Let ts : Q -> string := fun _ => "".

Lemma loadLocationData_example_run :
  let st :=
    PrototypeLoad.run ts (page_loaded blank)
      [Call; Call; Select "Chicago";
       Settled (Rejected Api.AbortError) "2025-10-05T12:00:00.000Z";
       Select "Houston"] in
  fetched st
  = ["http://localhost:8000/forecast/Washington_DC";
     "http://localhost:8000/forecast/Houston"] /\
  finished st = 1%nat /\ isLoading st = true.
Proof. vm_compute. repeat split. Qed.

End LoadLocationDataExamples.

Lemma loadLocationData_one_at_a_time_witness :
  let blank :=
    PrototypeUI.mkPanel "" (JS.of_Z 0) "" "" "" (JS.Normal "")
      (JS.Normal "") (JS.Normal "") in
  let st :=
    PrototypeLoad.run (fun _ => "") (PrototypeLoad.page_loaded blank)
      [PrototypeLoad.Call; PrototypeLoad.Call;
       PrototypeLoad.Select "Chicago"] in
  length (PrototypeLoad.fetched st)
  = (PrototypeLoad.finished st
     + (if PrototypeLoad.isLoading st then 1 else 0))%nat.
Proof.
  intros blank.
  apply (loadLocationData_one_at_a_time (fun _ => "")
           (PrototypeLoad.page_loaded blank)
           [PrototypeLoad.Call; PrototypeLoad.Call;
            PrototypeLoad.Select "Chicago"]); reflexivity.
Defined.

Lemma loadLocationData_drops_selection_witness :
  let blank :=
    PrototypeUI.mkPanel "" (JS.of_Z 0) "" "" "" (JS.Normal "")
      (JS.Normal "") (JS.Normal "") in
  let loading :=
    PrototypeLoad.loadLocationData (PrototypeLoad.page_loaded blank) in
  let reading :=
    PrototypeUI.mkForecast "2025-10-05T12:00:00Z" (Some (JS.of_Z 42))
      None None None in
  let st' :=
    PrototypeLoad.run (fun _ => "") loading
      [PrototypeLoad.Select "Chicago";
       PrototypeLoad.Settled
         (Async.Resolved
            (PrototypeLoad.mkData (Some [reading]) "Washington_DC"))
         "2025-10-05T12:00:01.000Z"] in
  PrototypeLoad.currentLocation st' = "Chicago" /\
  PrototypeUI.locationName (PrototypeLoad.panel st') = "Washington_DC" /\
  PrototypeLoad.fetched st' = PrototypeLoad.fetched loading /\
  PrototypeLoad.isLoading st' = false.
Proof.
  intros blank loading reading.
  apply (loadLocationData_drops_selection (fun _ => "") loading "Chicago"
           (PrototypeLoad.mkData (Some [reading]) "Washington_DC")
           reading [] "2025-10-05T12:00:01.000Z"); reflexivity.
Defined.

Lemma loadLocationData_timeout_shows_fallback_witness :
  let blank :=
    PrototypeUI.mkPanel "" (JS.of_Z 0) "" "" "" (JS.Normal "")
      (JS.Normal "") (JS.Normal "") in
  let loading :=
    PrototypeLoad.loadLocationData (PrototypeLoad.page_loaded blank) in
  let st' :=
    PrototypeLoad.step (fun _ => "") loading
      (PrototypeLoad.Settled (Async.Rejected Api.AbortError)
         "2025-10-05T12:00:10.000Z") in
  PrototypeUI.aqiNumber (PrototypeLoad.panel st') = JS.of_Z 65 /\
  PrototypeUI.aqiLevel (PrototypeLoad.panel st') = "Moderate" /\
  PrototypeUI.locationName (PrototypeLoad.panel st') = "Washington_DC" /\
  PrototypeLoad.errorMessage st' = None /\
  PrototypeLoad.isLoading st' = false.
Proof.
  intros blank loading.
  apply (proj2 (loadLocationData_timeout_shows_fallback (fun _ => "")
                  loading Async.Silent "2025-10-05T12:00:10.000Z"
                  eq_refl ltac:(discriminate))).
Defined.

Lemma loadLocationData_failure_shows_error_witness :
  let blank :=
    PrototypeUI.mkPanel "" (JS.of_Z 0) "" "" "" (JS.Normal "")
      (JS.Normal "") (JS.Normal "") in
  let loading :=
    PrototypeLoad.loadLocationData (PrototypeLoad.page_loaded blank) in
  let e :=
    Api.http_error
      (Async.mkResponse (Json:=unit) 503 "Service Unavailable"
         Async.BodyStalls) in
  let st' :=
    PrototypeLoad.step (fun _ => "") loading
      (PrototypeLoad.Settled (Async.Rejected e) "") in
  PrototypeLoad.panel st' = blank /\
  PrototypeLoad.errorMessage st'
  = Some "Failed to load location data: HTTP 503: Service Unavailable" /\
  PrototypeLoad.helpers st' = [] /\
  PrototypeLoad.isLoading st' = false.
Proof.
  intros blank loading e.
  apply (loadLocationData_failure_shows_error (fun _ => "") loading e "");
    [reflexivity|discriminate].
Defined.

Lemma loadLocationData_blocked_while_loading_witness :
  let blank :=
    PrototypeUI.mkPanel "" (JS.of_Z 0) "" "" "" (JS.Normal "")
      (JS.Normal "") (JS.Normal "") in
  let loading :=
    PrototypeLoad.loadLocationData (PrototypeLoad.page_loaded blank) in
  let later :=
    PrototypeLoad.run (fun _ => "") loading
      [PrototypeLoad.Call; PrototypeLoad.Select "Chicago";
       PrototypeLoad.Call] in
  PrototypeLoad.fetched later = PrototypeLoad.fetched loading /\
  PrototypeLoad.isLoading later = true.
Proof.
  intros blank loading.
  apply (proj2 (loadLocationData_blocked_while_loading (fun _ => "")
                  loading
                  [PrototypeLoad.Call; PrototypeLoad.Select "Chicago";
                   PrototypeLoad.Call]
                  eq_refl ltac:(repeat constructor))).
Defined.
